(** * Aviator Chatbot UI: the session/chat state coordinator

    A shallow embedding of
    - [types/index.ts]           (the data model),
    - [context/AppContext.tsx]   (the reducer [appReducer] and the helpers
                                  of [AppProvider]),
    - [components/ChatPanel.tsx] ([handleSendMessage], [handleFeedback],
                                  [simulateStreamingResponse]),
    - [components/Chat.tsx]      ([handleSendMessage],
                                  [simulateStreamingResponse]),
    - [components/Layout.tsx]    ([handleLogout]),
    and the properties of the coordinator proved over it.

    Conventions.
    - A JS [string] is a [string]; a character stands for one code unit
      (those below 256).
    - A JS [number] used as an index is a [Z]: [Array.prototype.map] hands
      its callback the indices [0, 1, ...], a payload index may be any
      integer.
    - [T | null] is [option T]; an optional property [p?: T] is [option T]
      as well ([None] when the property is absent), so
      [feedback?: 'liked' | 'disliked' | null] is [option (option Feedback)].
    - Where two interfaces share a field name the later one gets a prefix
      ([history_id], [req_username], [fb_chat_id], ...); the role ['user'] is
      [user_role], since [user] is a field of the state.
    - An event handler is a finite tree of calls ([handler]). It reads the
      [state] of the render it was created in (its first argument) and acts
      on the store through [Dispatch]. An awaited promise answers with
      [Resolved v] or [Rejected], and [try]/[catch] is the case analysis on
      that answer. The callbacks of a timer are calls made in the order in
      which the timer fires.
    - [run] executes one handler alone: the store changes through the
      actions this handler dispatches and through nothing else.
      [overtaken] lets a second handler run while the first one waits for
      the request it awaits. *)

From Stdlib Require Import Ascii.
From stdpp Require Import base numbers list strings gmap.

(** ** Data model ([types/index.ts]) *)

Inductive UserType := Support | Client | Tester.

Record User := {
  id : Z;
  username : string;
  user_type : UserType;
  full_name : option string;
  email : option string;
  is_active : bool;
  isLoggedIn : bool;
}.

Inductive Role := user_role | assistant.

Inductive Feedback := liked | disliked.

Record ChatMessage := {
  role : Role;
  content : string;
  feedback : option (option Feedback);
  timestamp : option string;
}.

Record ChatHistory := {
  history_id : string;
  title : string;
  history_timestamp : string;
  history_username : string;
}.

Record ChatRequest := {
  req_username : string;
  req_chat_id : option string;
  user_input : string;
}.

Record ChatResponse := {
  response : string;
  chat_id : string;
}.

(** [FeedbackRequest] and [FeedbackResponse] of [services/api.ts]. *)
Record FeedbackRequest := {
  fb_username : string;
  fb_chat_id : string;
  message_index : Z;
  user_message : string;
  assistant_message : string;
  feedback_type : Feedback;
}.

Record FeedbackResponse := {
  fb_message : string;
  feedback_id : string;
}.

#[global] Instance Role_eq_dec : EqDecision Role.
Proof. solve_decision. Defined.

#[global] Instance Feedback_eq_dec : EqDecision Feedback.
Proof. solve_decision. Defined.

(** The object literal [{ role, content }]: [feedback] and [timestamp] are
    absent. *)
Definition mkMessage (r : Role) (c : string) : ChatMessage :=
  {| role := r; content := c; feedback := None; timestamp := None |}.

(** ** The state container ([context/AppContext.tsx]) *)

Record AppState := {
  user : option User;
  currentChatId : option string;
  messages : list ChatMessage;
  chatHistory : list ChatHistory;
  isLoading : bool;
  error : option string;
  needsHistoryRefresh : bool;
}.

Inductive AppAction :=
| LOGIN (payload : User)
| LOGOUT
| SET_LOADING (payload : bool)
| SET_ERROR (payload : option string)
| SET_CURRENT_CHAT (payload : option string)
| SET_MESSAGES (payload : list ChatMessage)
| ADD_MESSAGE (payload : ChatMessage)
| UPDATE_MESSAGE (index : Z) (message : ChatMessage)
| SET_CHAT_HISTORY (payload : list ChatHistory)
| SET_NEEDS_HISTORY_REFRESH (payload : bool)
| UPDATE_MESSAGE_FEEDBACK (index : Z) (fb : option Feedback).

Definition initialState : AppState :=
  {| user := None;
     currentChatId := None;
     messages := [];
     chatHistory := [];
     isLoading := false;
     error := None;
     needsHistoryRefresh := false |}.

(** [{ ...msg, feedback: fb }] *)
Definition withFeedback (msg : ChatMessage) (fb : option Feedback) : ChatMessage :=
  {| role := role msg;
     content := content msg;
     feedback := Some fb;
     timestamp := timestamp msg |}.

(** [msgs.map((msg, index) => index === target ? f(msg) : msg)] *)
Definition mapAt (target : Z) (f : ChatMessage → ChatMessage)
    (msgs : list ChatMessage) : list ChatMessage :=
  imap (λ index msg, if bool_decide (Z.of_nat index = target) then f msg else msg) msgs.

Definition appReducer (state : AppState) (action : AppAction) : AppState :=
  match action with
  | LOGIN payload =>
      {| user := Some payload;
         currentChatId := currentChatId state;
         messages := messages state;
         chatHistory := chatHistory state;
         isLoading := isLoading state;
         error := None;
         needsHistoryRefresh := needsHistoryRefresh state |}
  | LOGOUT => initialState
  | SET_LOADING payload =>
      {| user := user state;
         currentChatId := currentChatId state;
         messages := messages state;
         chatHistory := chatHistory state;
         isLoading := payload;
         error := error state;
         needsHistoryRefresh := needsHistoryRefresh state |}
  | SET_ERROR payload =>
      {| user := user state;
         currentChatId := currentChatId state;
         messages := messages state;
         chatHistory := chatHistory state;
         isLoading := false;
         error := payload;
         needsHistoryRefresh := needsHistoryRefresh state |}
  | SET_CURRENT_CHAT payload =>
      {| user := user state;
         currentChatId := payload;
         messages := messages state;
         chatHistory := chatHistory state;
         isLoading := isLoading state;
         error := error state;
         needsHistoryRefresh := needsHistoryRefresh state |}
  | SET_MESSAGES payload =>
      {| user := user state;
         currentChatId := currentChatId state;
         messages := payload;
         chatHistory := chatHistory state;
         isLoading := isLoading state;
         error := error state;
         needsHistoryRefresh := needsHistoryRefresh state |}
  | ADD_MESSAGE payload =>
      let newMessages := messages state ++ [payload] in
      {| user := user state;
         currentChatId := currentChatId state;
         messages := newMessages;
         chatHistory := chatHistory state;
         isLoading := isLoading state;
         error := error state;
         needsHistoryRefresh := needsHistoryRefresh state |}
  | UPDATE_MESSAGE index message =>
      let updatedMessages := mapAt index (λ _, message) (messages state) in
      {| user := user state;
         currentChatId := currentChatId state;
         messages := updatedMessages;
         chatHistory := chatHistory state;
         isLoading := isLoading state;
         error := error state;
         needsHistoryRefresh := needsHistoryRefresh state |}
  | SET_CHAT_HISTORY payload =>
      {| user := user state;
         currentChatId := currentChatId state;
         messages := messages state;
         chatHistory := payload;
         isLoading := isLoading state;
         error := error state;
         needsHistoryRefresh := needsHistoryRefresh state |}
  | SET_NEEDS_HISTORY_REFRESH payload =>
      {| user := user state;
         currentChatId := currentChatId state;
         messages := messages state;
         chatHistory := chatHistory state;
         isLoading := isLoading state;
         error := error state;
         needsHistoryRefresh := payload |}
  | UPDATE_MESSAGE_FEEDBACK index fb =>
      {| user := user state;
         currentChatId := currentChatId state;
         messages := mapAt index (λ msg, withFeedback msg fb) (messages state);
         chatHistory := chatHistory state;
         isLoading := isLoading state;
         error := error state;
         needsHistoryRefresh := needsHistoryRefresh state |}
  end.

(** A run of dispatches, oldest first. *)
Definition dispatchAll (state : AppState) (actions : list AppAction) : AppState :=
  foldl appReducer state actions.

(** The fields of the state other than [messages]. *)
Definition sameFrame (s s' : AppState) : Prop :=
  user s' = user s ∧ currentChatId s' = currentChatId s ∧
  chatHistory s' = chatHistory s ∧ isLoading s' = isLoading s ∧
  error s' = error s ∧ needsHistoryRefresh s' = needsHistoryRefresh s.

Definition inBounds (msgs : list ChatMessage) (index : Z) : Prop :=
  (0 ≤ index < Z.of_nat (length msgs))%Z.

(** ** JS string helpers *)

(** The code units [String.prototype.trim] strips, among those below 256:
    TAB, LF, VT, FF, CR, SPACE and NBSP. *)
Definition isWhiteSpace (c : ascii) : bool :=
  bool_decide (N_of_ascii c ∈ [9; 10; 11; 12; 13; 32; 160]%N).

Fixpoint trimStart (s : string) : string :=
  match s with
  | EmptyString => EmptyString
  | String c s' => if isWhiteSpace c then trimStart s' else s
  end.

Definition isEmpty (s : string) : bool :=
  match s with EmptyString => true | String _ _ => false end.

(** A code unit is dropped from the end when it is white space and all that
    follows it is dropped too. *)
Fixpoint trimEnd (s : string) : string :=
  match s with
  | EmptyString => EmptyString
  | String c s' =>
      let t := trimEnd s' in
      if isWhiteSpace c && isEmpty t then EmptyString else String c t
  end.

Definition trim (s : string) : string := trimEnd (trimStart s).

Definition whitespaceOnly (s : string) : bool :=
  forallb isWhiteSpace (String.list_ascii_of_string s).

(** [s.substring(0, n)] *)
Definition substring0 (n : nat) (s : string) : string := String.substring 0 n s.

(** [s.split(sep)] for a one-character separator; the result is never empty. *)
Fixpoint split (sep : ascii) (s : string) : list string :=
  match s with
  | EmptyString => [EmptyString]
  | String c s' =>
      if Ascii.eqb c sep then EmptyString :: split sep s'
      else match split sep s' with
           | w :: ws => String c w :: ws
           | [] => [String c EmptyString]
           end
  end.

(** [s.toLowerCase()] on the code units below 256: the letters A-Z and the
    upper-case letters of Latin-1 (0xC0-0xDE but the sign 0xD7). *)
Definition lowerChar (c : ascii) : ascii :=
  let n := N_of_ascii c in
  if (bool_decide (65 ≤ n ≤ 90) || bool_decide (192 ≤ n ≤ 222) && negb (bool_decide (n = 215)))%N
  then ascii_of_N (n + 32) else c.

Fixpoint toLowerCase (s : string) : string :=
  match s with
  | EmptyString => EmptyString
  | String c s' => String (lowerChar c) (toLowerCase s')
  end.

(** [s.endsWith(suffix)] *)
Definition endsWith (s suffix : string) : bool :=
  bool_decide (String.length suffix ≤ String.length s)
  && String.eqb
       (String.substring (String.length s - String.length suffix) (String.length suffix) s)
       suffix.

(** [s.includes(needle)] *)
Fixpoint includes (s needle : string) : bool :=
  String.prefix needle s
  || match s with
     | EmptyString => false
     | String _ s' => includes s' needle
     end.

(** JS truthiness of a string. *)
Definition truthy (s : string) : bool := negb (isEmpty s).

(** [arr[i]] for an integer [i]: [undefined] ([None]) out of range. *)
Definition at_index {A} (arr : list A) (i : Z) : option A :=
  if bool_decide (0 ≤ i)%Z then arr !! Z.to_nat i else None.

(** [arr.slice(0, -1)] *)
Definition slice_0_m1 {A} (arr : list A) : list A := take (length arr - 1) arr.

(** ** Handlers as trees of calls *)

(** What a component's event handler can do: dispatch to the store, set a
    piece of the component's local state, focus the input box, or call the
    backend and await the answer. *)
Inductive call :=
| Dispatch (a : AppAction)
| SetInputValue (s : string)
| SetIsWaitingForResponse (b : bool)
| SetIsStreaming (b : bool)
| FocusInput
| SendMessage (r : ChatRequest)
| SubmitFeedback (r : FeedbackRequest)
| AuthLogout.

(** The settlement of an awaited promise. *)
Inductive Outcome (T : Type) :=
| Resolved (v : T)
| Rejected.
Arguments Resolved {T} v.
Arguments Rejected {T}.

Definition reply (c : call) : Type :=
  match c with
  | SendMessage _ => Outcome ChatResponse
  | SubmitFeedback _ => Outcome FeedbackResponse
  | AuthLogout => Outcome unit
  | _ => unit
  end.

Inductive handler (T : Type) :=
| Done (x : T)
| Do (c : call) (k : reply c → handler T).
Arguments Done {T} x.
Arguments Do {T} c k.

Fixpoint bind {A B} (p : handler A) (q : A → handler B) : handler B :=
  match p with
  | Done x => q x
  | Do c k => Do c (λ r, bind (k r) q)
  end.

Definition perform (c : call) : handler (reply c) := Do c Done.

#[global] Instance handler_ret : MRet handler := @Done.
#[global] Instance handler_bind : MBind handler := λ A B q p, bind p q.

(** The helper functions [AppProvider] hands out. *)
Definition setError (e : option string) : handler unit :=
  perform (Dispatch (SET_ERROR e)).
Definition setCurrentChat (chatId : option string) : handler unit :=
  perform (Dispatch (SET_CURRENT_CHAT chatId)).
Definition setMessages (msgs : list ChatMessage) : handler unit :=
  perform (Dispatch (SET_MESSAGES msgs)).
Definition addMessage (m : ChatMessage) : handler unit :=
  perform (Dispatch (ADD_MESSAGE m)).
Definition updateMessage (index : Z) (m : ChatMessage) : handler unit :=
  perform (Dispatch (UPDATE_MESSAGE index m)).
Definition setNeedsHistoryRefresh (needs : bool) : handler unit :=
  perform (Dispatch (SET_NEEDS_HISTORY_REFRESH needs)).
Definition updateMessageFeedback (index : Z) (fb : option Feedback) : handler unit :=
  perform (Dispatch (UPDATE_MESSAGE_FEEDBACK index fb)).

Definition logout : handler unit := perform (Dispatch LOGOUT).

(** [services/api.ts]: [authApi.logout] makes no request, it resolves after a
    delay; the endpoints of [chatApi] are the ones the chat handlers await. *)
Module authApi.
Definition logout : handler (Outcome unit) := perform AuthLogout.
End authApi.

Module chatApi.
Definition sendMessage (request : ChatRequest) : handler (Outcome ChatResponse) :=
  perform (SendMessage request).
Definition submitFeedback (request : FeedbackRequest) : handler (Outcome FeedbackResponse) :=
  perform (SubmitFeedback request).
End chatApi.

(** The backend, as far as the client sees it. *)
Record Backend := {
  chat_send : ChatRequest → Outcome ChatResponse;
  chat_feedback : FeedbackRequest → Outcome FeedbackResponse;
  auth_logout : Outcome unit;
}.

Definition answer (b : Backend) (c : call) : reply c :=
  match c with
  | SendMessage r => chat_send b r
  | SubmitFeedback r => chat_feedback b r
  | AuthLogout => auth_logout b
  | _ => tt
  end.

Definition effect (c : call) (store : AppState) : AppState :=
  match c with
  | Dispatch a => appReducer store a
  | _ => store
  end.

(** Runs a handler against a backend: the store it leaves and the calls it
    made, in order. *)
Fixpoint run {T} (b : Backend) (p : handler T) (store : AppState)
    : AppState * list call :=
  match p with
  | Done _ => (store, [])
  | Do c k =>
      let r := run b (k (answer b c)) (effect c store) in
      (r.1, c :: r.2)
  end.

(** The calls a handler makes against a backend, in order, and the value it
    returns: neither depends on the store. *)
Fixpoint trace {T} (b : Backend) (p : handler T) : list call :=
  match p with
  | Done _ => []
  | Do c k => c :: trace b (k (answer b c))
  end.

Fixpoint value {T} (b : Backend) (p : handler T) : T :=
  match p with
  | Done x => x
  | Do c k => value b (k (answer b c))
  end.

(** The calls a handler awaits: it stops there until the promise settles,
    and other handlers run meanwhile. *)
Definition awaited (c : call) : bool :=
  match c with
  | SendMessage _ | SubmitFeedback _ | AuthLogout => true
  | _ => false
  end.

(** The synchronous start of a handler: it runs up to its first awaited
    call, which is left at the head of what remains of the handler. The
    calls before it take no answer from the backend. *)
Fixpoint start {T} (b : Backend) (p : handler T) (store : AppState)
    : AppState * handler T :=
  match p with
  | Done x => (store, Done x)
  | Do c k =>
      if awaited c then (store, p)
      else start b (k (answer b c)) (effect c store)
  end.

(** [p] starts on [store] and waits for its request; meanwhile [q] runs to
    its end; then the request of [p] settles and [p] goes on, on the store
    that [q] left. Nothing cancels [p]: the store is that of [AppProvider],
    which stays mounted. *)
Definition overtaken {T U} (b : Backend) (p : handler T) (q : handler U)
    (store : AppState) : AppState :=
  let started := start b p store in
  let between := (run b q started.1).1 in
  (run b started.2 between).1.

(** The reducer actions among the calls of a run. *)
Fixpoint dispatched (calls : list call) : list AppAction :=
  match calls with
  | [] => []
  | Dispatch a :: rest => a :: dispatched rest
  | _ :: rest => dispatched rest
  end.

(** The requests that reached the backend. *)
Definition network (calls : list call) : list call :=
  List.filter (λ c, match c with SendMessage _ | SubmitFeedback _ => true | _ => false end)
    calls.

Definition sets_current_chat (a : AppAction) : bool :=
  match a with SET_CURRENT_CHAT _ => true | _ => false end.

Definition sets_needs_refresh (a : AppAction) : bool :=
  match a with SET_NEEDS_HISTORY_REFRESH _ => true | _ => false end.

Definition updates_message (a : AppAction) : bool :=
  match a with UPDATE_MESSAGE _ _ => true | _ => false end.

Definition sentinel : string := "new_chat".

(** [chat_id: state.currentChatId === 'new_chat' || state.currentChatId === null
              ? undefined : state.currentChatId] *)
Definition chatIdOrAbsent (currentChatId : option string) : option string :=
  match currentChatId with
  | None => None
  | Some c => if bool_decide (c = sentinel) then None else Some c
  end.

(** ** Handlers of the session, the login form and the upload form

    These handlers await other endpoints and set other pieces of local
    state than the chat exchange does, so they are trees over their own
    events. [play] also records the store each event met, which tells what
    the interface shows while a request is pending. *)

(** [LoginResponse] of [types/index.ts]; [message] and [user] are prefixed. *)
Record LoginResponse := {
  success : bool;
  login_message : string;
  login_user : option User;
}.

(** What the [catch] of the login form reads off a rejection:
    [error.response?.status] and [error.response?.data?.detail]. *)
Record AxiosError := {
  status : option Z;
  detail : option string;
}.

(** The properties of a DOM [File] the upload form reads. *)
Record File := {
  file_name : string;
  file_type : string;
  file_size : Z;
}.

(** The [uploadForm] state of [DocumentUpload.tsx]. *)
Record UploadForm := {
  form_file : option File;
  form_description : string;
  form_category : string;
  form_status : string;
  form_access : string;
}.

(** [DocumentUpload] of [types/index.ts], the argument of
    [documentsApi.uploadDocument]. *)
Record UploadRequest := {
  upload_file : File;
  upload_description : string;
  upload_category : string;
  upload_status : string;
  upload_access : string;
}.

Record UploadResult := {
  upload_message : string;
  filename : string;
}.

Inductive event :=
| Store (a : AppAction)
| SetShowHistory (b : bool)
| SetIsLoadingHistory (b : bool)
| InputFocus
| SetUploadFormFile (f : File)
| SetUploadForm (form : UploadForm)
| SetUploadSuccess (m : option string)
| ClearFileInput
| GetUserHistory (username : string)
| GetChatMessages (username chatId : string)
| PostLogin (username password : string)
| PostUpload (upload : UploadRequest).

Definition result (e : event) : Type :=
  match e with
  | GetUserHistory _ => Outcome (list ChatHistory)
  | GetChatMessages _ _ => Outcome (list ChatMessage)
  | PostLogin _ _ => (LoginResponse + AxiosError)%type
  | PostUpload _ => Outcome UploadResult
  | _ => unit
  end.

Inductive task (T : Type) :=
| Finish (x : T)
| Step (e : event) (k : result e → task T).
Arguments Finish {T} x.
Arguments Step {T} e k.

Fixpoint task_bind {A B} (p : task A) (q : A → task B) : task B :=
  match p with
  | Finish x => q x
  | Step e k => Step e (λ r, task_bind (k r) q)
  end.

Definition emit (e : event) : task (result e) := Step e Finish.

#[global] Instance task_ret : MRet task := @Finish.
#[global] Instance task_mbind : MBind task := λ A B q p, task_bind p q.

(** The helpers of [useApp()], as these handlers use them. *)
Module useApp.
Definition login (u : User) : task unit := emit (Store (LOGIN u)).
Definition setLoading (loading : bool) : task unit := emit (Store (SET_LOADING loading)).
Definition setError (e : option string) : task unit := emit (Store (SET_ERROR e)).
Definition setCurrentChat (chatId : option string) : task unit :=
  emit (Store (SET_CURRENT_CHAT chatId)).
Definition setMessages (msgs : list ChatMessage) : task unit :=
  emit (Store (SET_MESSAGES msgs)).
Definition setChatHistory (history : list ChatHistory) : task unit :=
  emit (Store (SET_CHAT_HISTORY history)).
Definition setNeedsHistoryRefresh (needs : bool) : task unit :=
  emit (Store (SET_NEEDS_HISTORY_REFRESH needs)).
End useApp.

(** [services/api.ts] *)
Module historyApi.
Definition getUserHistory (username : string) : task (Outcome (list ChatHistory)) :=
  emit (GetUserHistory username).
Definition getChatMessages (username chatId : string) : task (Outcome (list ChatMessage)) :=
  emit (GetChatMessages username chatId).
End historyApi.

Module documentsApi.
Definition uploadDocument (upload : UploadRequest) : task (Outcome UploadResult) :=
  emit (PostUpload upload).
End documentsApi.

(** The backend behind these endpoints. *)
Record Server := {
  user_history : string → Outcome (list ChatHistory);
  chat_messages : string → string → Outcome (list ChatMessage);
  auth_login : string → string → LoginResponse + AxiosError;
  upload_document : UploadRequest → Outcome UploadResult;
}.

Definition respond (srv : Server) (e : event) : result e :=
  match e with
  | GetUserHistory u => user_history srv u
  | GetChatMessages u c => chat_messages srv u c
  | PostLogin u p => auth_login srv u p
  | PostUpload upload => upload_document srv upload
  | _ => tt
  end.

Definition commit (e : event) (store : AppState) : AppState :=
  match e with
  | Store a => appReducer store a
  | _ => store
  end.

(** Plays a task against a server: the store it leaves, and its events in
    order, each with the store it met. *)
Fixpoint play {T} (srv : Server) (p : task T) (store : AppState)
    : AppState * list (event * AppState) :=
  match p with
  | Finish _ => (store, [])
  | Step e k =>
      let r := play srv (k (respond srv e)) (commit e store) in
      (r.1, (e, store) :: r.2)
  end.

Definition isRequest (e : event) : bool :=
  match e with
  | GetUserHistory _ | GetChatMessages _ _ | PostLogin _ _ | PostUpload _ => true
  | _ => false
  end.

(** The requests of a play, each with the store that was shown when it was
    sent. *)
Definition requests (log : list (event * AppState)) : list (event * AppState) :=
  List.filter (λ entry, isRequest entry.1) log.

(** ** [components/ChatPanel.tsx] *)

Module ChatPanel.

Definition apology : string := "Sorry, I encountered an error. Please try again.".

(** The interval callback of [simulateStreamingResponse], one call per
    tick, until it clears its own interval. [fuel] bounds the ticks. *)
Fixpoint streamingInterval (fuel : nat) (fullResponse : string) (messageIndex : Z)
    (currentIndex : nat) : handler unit :=
  match fuel with
  | O => Done tt
  | S fuel' =>
      if bool_decide (currentIndex < String.length fullResponse) then
        let currentIndex := currentIndex + 8 in
        let partialResponse := substring0 currentIndex fullResponse in
        updateMessage messageIndex (mkMessage assistant partialResponse) ;;
        streamingInterval fuel' fullResponse messageIndex currentIndex
      else
        perform (SetIsStreaming false) ;;
        updateMessage messageIndex (mkMessage assistant fullResponse) ;;
        perform FocusInput
  end.

(** The index grows by 8 a tick from 5, so [S (length fullResponse)] ticks
    reach the branch that clears the interval
    (see [ChatPanel_streamingInterval_clears]). *)
Definition simulateStreamingResponse (fullResponse : string) (messageIndex : Z)
    : handler unit :=
  perform (SetIsStreaming true) ;;
  updateMessage messageIndex (mkMessage assistant (substring0 5 fullResponse)) ;;
  streamingInterval (S (String.length fullResponse)) fullResponse messageIndex 5.

Definition handleSendMessage (state : AppState) (inputValue : string) : handler unit :=
  if isEmpty (trim inputValue) then Done tt
  else match user state with
  | None => Done tt
  | Some u =>
      let userMessage := trim inputValue in
      perform (SetInputValue "") ;;
      addMessage (mkMessage user_role userMessage) ;;
      addMessage (mkMessage assistant "") ;;
      let assistantMessageIndex := (Z.of_nat (length (messages state)) + 1)%Z in
      perform (SetIsWaitingForResponse true) ;;
      r ← chatApi.sendMessage
            {| user_input := userMessage;
               req_chat_id := chatIdOrAbsent (currentChatId state);
               req_username := username u |} ;
      match r with
      | Resolved resp =>
          perform (SetIsWaitingForResponse false) ;;
          (if truthy (chat_id resp) && bool_decide (currentChatId state = Some sentinel)
           then setCurrentChat (Some (chat_id resp)) ;; setNeedsHistoryRefresh true
           else Done tt) ;;
          simulateStreamingResponse (response resp) assistantMessageIndex
      | Rejected =>
          perform (SetIsWaitingForResponse false) ;;
          setError (Some "Failed to send message") ;;
          updateMessage assistantMessageIndex (mkMessage assistant apology)
      end
  end.

Definition handleFeedback (state : AppState) (messageIndex : Z) (feedbackType : Feedback)
    : handler unit :=
  match at_index (messages state) messageIndex, user state, currentChatId state with
  | Some currentMessage, Some u, Some chatId =>
      if isEmpty chatId || negb (bool_decide (role currentMessage = assistant))
      then Done tt
      else
        let userMessage :=
          match at_index (messages state) (messageIndex - 1) with
          | Some m => content m
          | None => ""
          end in
        updateMessageFeedback messageIndex (Some feedbackType) ;;
        r ← chatApi.submitFeedback
              {| fb_username := username u;
                 fb_chat_id := chatId;
                 message_index := (messageIndex / 2)%Z;
                 user_message := userMessage;
                 assistant_message := content currentMessage;
                 feedback_type := feedbackType |} ;
        match r with
        | Resolved _ => Done tt
        | Rejected =>
            updateMessageFeedback messageIndex None ;;
            setError (Some "Failed to submit feedback")
        end
  | _, _, _ => Done tt
  end.

(** [useEffect] on [[isOpen, state.user]] calls this when the panel is open
    and a user is set. *)
Definition initializeChatSession (state : AppState) : task unit :=
  match user state with
  | None => Finish tt
  | Some u =>
      r ← historyApi.getUserHistory (username u) ;
      match r with
      | Resolved history =>
          useApp.setChatHistory history ;;
          useApp.setCurrentChat (Some sentinel) ;;
          useApp.setMessages []
      | Rejected => useApp.setError (Some "Failed to initialize chat session")
      end
  end.

Definition handleNewChat : task unit :=
  useApp.setCurrentChat (Some sentinel) ;;
  useApp.setMessages [] ;;
  emit (SetShowHistory false) ;;
  emit InputFocus.

Definition toggleHistory (showHistory : bool) : task unit :=
  emit (SetShowHistory (negb showHistory)).

Definition handleHistoryItemClick (state : AppState) (chatId : string) : task unit :=
  match user state with
  | None => Finish tt
  | Some u =>
      emit (SetIsLoadingHistory true) ;;
      emit (SetShowHistory false) ;;
      useApp.setCurrentChat (Some chatId) ;;
      r ← historyApi.getChatMessages (username u) chatId ;
      match r with
      | Resolved messages => useApp.setMessages messages ;; emit InputFocus
      | Rejected => useApp.setError (Some "Failed to load chat messages")
      end ;;
      emit (SetIsLoadingHistory false)
  end.

(** [Position]: a point, or a width ([x]) and a height ([y]); pixels are
    integers here. *)
Record Position := { x : Z; y : Z }.

(** What the handlers read off [chatPanelRef.current]: its bounding
    rectangle and its offset size; [None] while the panel is not mounted. *)
Record PanelBox := {
  left : Z;
  top : Z;
  offsetWidth : Z;
  offsetHeight : Z;
}.

(** The position [handleMouseMove] sets ([position] when it sets none). *)
Definition handleMouseMove (isDragging : bool) (chatPanelRef : option PanelBox)
    (dragOffset : Position) (clientX clientY innerWidth innerHeight : Z)
    (position : Position) : Position :=
  match isDragging, chatPanelRef with
  | true, Some panel =>
      let newX := (clientX - x dragOffset)%Z in
      let newY := (clientY - y dragOffset)%Z in
      let maxX := (innerWidth - offsetWidth panel)%Z in
      let maxY := (innerHeight - offsetHeight panel)%Z in
      {| x := Z.max 0 (Z.min newX maxX); y := Z.max 0 (Z.min newY maxY) |}
  | _, _ => position
  end.

(** The size [handleResizeMouseMove] sets ([size] when it sets none). *)
Definition handleResizeMouseMove (isResizing : bool) (chatPanelRef : option PanelBox)
    (resizeDirection : string) (position size : Position)
    (clientX clientY innerWidth innerHeight : Z) : Position :=
  match isResizing, chatPanelRef with
  | true, Some rect =>
      let minWidth := 300%Z in
      let minHeight := 400%Z in
      let maxWidth := (innerWidth - x position)%Z in
      let maxHeight := (innerHeight - y position)%Z in
      let newWidth :=
        if includes resizeDirection "right"
        then Z.max minWidth (Z.min maxWidth (clientX - left rect))
        else x size in
      let newHeight :=
        if includes resizeDirection "bottom"
        then Z.max minHeight (Z.min maxHeight (clientY - top rect))
        else y size in
      {| x := newWidth; y := newHeight |}
  | _, _ => size
  end.

(** The window's [resize] listener: [setPosition(prev => ...)]. *)
Definition handleResize (chatPanelRef : option PanelBox) (innerWidth innerHeight : Z)
    (prev : Position) : Position :=
  match chatPanelRef with
  | Some panel =>
      let maxX := (innerWidth - offsetWidth panel)%Z in
      let maxY := (innerHeight - offsetHeight panel)%Z in
      {| x := Z.max 0 (Z.min (x prev) maxX); y := Z.max 0 (Z.min (y prev) maxY) |}
  | None => prev
  end.

End ChatPanel.

(** ** [components/Chat.tsx] *)

Module Chat.

(** The interval callback of [simulateStreamingResponse]: [words] is what
    is left of the split response from [wordIndex] on. *)
Fixpoint streamingInterval (messageIndex : Z) (words : list string) (wordIndex : nat)
    (currentResponse : string) : handler string :=
  match words with
  | word :: rest =>
      let currentResponse :=
        currentResponse +:+ (if bool_decide (0 < wordIndex) then " " else "") +:+ word in
      updateMessage messageIndex (mkMessage assistant currentResponse) ;;
      streamingInterval messageIndex rest (S wordIndex) currentResponse
  | [] =>
      perform (SetIsStreaming false) ;;
      Done currentResponse
  end.

Definition simulateStreamingResponse (fullResponse : string) (messageIndex : Z)
    : handler string :=
  let words := split " " fullResponse in
  streamingInterval messageIndex words 0 "".

Definition handleSendMessage (state : AppState) (inputValue : string) (isStreaming : bool)
    : handler unit :=
  if isEmpty (trim inputValue) then Done tt
  else match user state with
  | None => Done tt
  | Some u =>
      if isStreaming then Done tt
      else
        let userMessage := mkMessage user_role (trim inputValue) in
        let assistantMessageIndex := (Z.of_nat (length (messages state)) + 1)%Z in
        addMessage userMessage ;;
        let placeholderMessage := mkMessage assistant "" in
        addMessage placeholderMessage ;;
        perform (SetInputValue "") ;;
        perform (SetIsStreaming true) ;;
        r ← chatApi.sendMessage
              {| req_username := username u;
                 req_chat_id := chatIdOrAbsent (currentChatId state);
                 user_input := content userMessage |} ;
        match r with
        | Resolved resp =>
            (if bool_decide (currentChatId state = Some sentinel)
                || bool_decide (currentChatId state = None)
             then setCurrentChat (Some (chat_id resp)) ;; setNeedsHistoryRefresh true
             else Done tt) ;;
            simulateStreamingResponse (response resp) assistantMessageIndex ;;
            Done tt
        | Rejected =>
            setError (Some "Failed to send message") ;;
            perform (SetIsStreaming false) ;;
            setMessages (slice_0_m1 (messages state))
        end
  end.

(** [useEffect] on [[state.user]] calls this when a user is set, the history
    is empty and no chat is current. *)
Definition initializeChatSession (state : AppState) : task unit :=
  match user state with
  | None => Finish tt
  | Some u =>
      useApp.setLoading true ;;
      r ← historyApi.getUserHistory (username u) ;
      match r with
      | Resolved history =>
          useApp.setChatHistory history ;;
          match history with
          | recentChat :: _ =>
              useApp.setCurrentChat (Some (history_id recentChat)) ;;
              r' ← historyApi.getChatMessages (username u) (history_id recentChat) ;
              match r' with
              | Resolved messages => useApp.setMessages messages
              | Rejected => useApp.setError (Some "Failed to initialize chat session")
              end
          | [] =>
              useApp.setCurrentChat (Some sentinel) ;;
              useApp.setMessages []
          end
      | Rejected => useApp.setError (Some "Failed to initialize chat session")
      end ;;
      useApp.setLoading false
  end.

Definition onMount (state : AppState) : task unit :=
  match user state, chatHistory state with
  | Some _, [] =>
      if negb (from_option truthy false (currentChatId state))
      then initializeChatSession state
      else Finish tt
  | _, _ => Finish tt
  end.

(** The refresh effect, on [[state.needsHistoryRefresh, state.user]]:
    [loadChatHistory()] is not awaited, so it sends its request, the effect
    resets the flag, and the rest of [loadChatHistory] runs when the request
    settles. *)
Definition onNeedsHistoryRefresh (state : AppState) : task unit :=
  match needsHistoryRefresh state, user state with
  | true, Some u =>
      r ← historyApi.getUserHistory (username u) ;
      useApp.setNeedsHistoryRefresh false ;;
      match r with
      | Resolved history => useApp.setChatHistory history
      | Rejected => useApp.setError (Some "Failed to load chat history")
      end
  | _, _ => Finish tt
  end.

Definition handleNewChat : task unit :=
  useApp.setCurrentChat (Some sentinel) ;;
  useApp.setMessages [].

Definition handleHistoryItemClick (state : AppState) (chatId : string) : task unit :=
  match user state with
  | None => Finish tt
  | Some u =>
      emit (SetIsLoadingHistory true) ;;
      useApp.setCurrentChat (Some chatId) ;;
      r ← historyApi.getChatMessages (username u) chatId ;
      match r with
      | Resolved messages => useApp.setMessages messages
      | Rejected => useApp.setError (Some "Failed to load chat messages")
      end ;;
      emit (SetIsLoadingHistory false)
  end.

(** [handleFeedback] toggles the tag in the store and calls no endpoint;
    [None] is the TypeError of reading [feedback] off [undefined]. *)
Definition handleFeedback (state : AppState) (messageIndex : Z) (fb : Feedback)
    : option (handler unit) :=
  match at_index (messages state) messageIndex with
  | None => None
  | Some currentMessage =>
      let newFeedback :=
        if bool_decide (feedback currentMessage = Some (Some fb)) then None else Some fb in
      Some (updateMessageFeedback messageIndex newFeedback)
  end.

End Chat.

(** ** [components/Layout.tsx] *)

Module Layout.

Definition handleLogout : handler unit :=
  r ← authApi.logout ;
  match r with
  | Resolved _ => logout
  | Rejected => logout
  end.

Definition handleDismissError : task unit := useApp.setError None.

(** [state.user?.user_type === 'Support' || state.user?.user_type === 'Tester'] *)
Definition canManageDocuments (state : AppState) : bool :=
  match user state with
  | Some u => match user_type u with Support | Tester => true | Client => false end
  | None => false
  end.

(** The ids and labels of [navigationItems]. *)
Definition navigationItems (state : AppState) : list (string * string) :=
  (if canManageDocuments state then [("document-management", "Documents")] else [])
  ++ [("users-feedback", "Feedback")].

(** What the content area renders; the dashboard carries whether its
    Documents card is shown. *)
Inductive Panel :=
| DocumentManagementPanel
| UsersFeedbackPanel
| DashboardPanel (documentsCard : bool).

Definition mainContent (currentPage : string) (state : AppState) : list Panel :=
  (if bool_decide (currentPage = "document-management") && canManageDocuments state
   then [DocumentManagementPanel] else [])
  ++ (if bool_decide (currentPage = "users-feedback") then [UsersFeedbackPanel] else [])
  ++ (if bool_decide (currentPage = "dashboard")
      then [DashboardPanel (canManageDocuments state)] else []).

End Layout.

(** ** [components/Login.tsx] *)

Module Login.

(** [{ ...response.user, isLoggedIn: true }] *)
Definition loggedIn (u : User) : User :=
  {| id := id u;
     username := username u;
     user_type := user_type u;
     full_name := full_name u;
     email := email u;
     is_active := is_active u;
     isLoggedIn := true |}.

Definition handleSubmit (credentials_username credentials_password : string) : task unit :=
  if isEmpty credentials_username || isEmpty credentials_password then
    useApp.setError (Some "Please enter both username and password")
  else
    useApp.setLoading true ;;
    useApp.setError None ;;
    r ← emit (PostLogin credentials_username credentials_password) ;
    match r with
    | inl response =>
        match success response, login_user response with
        | true, Some u => useApp.login (loggedIn u)
        | _, _ =>
            useApp.setError
              (Some (if truthy (login_message response) then login_message response
                     else "Invalid username or password"))
        end
    | inr error =>
        if bool_decide (status error = Some 401%Z) then
          useApp.setError (Some "Invalid username or password")
        else if from_option truthy false (detail error) then
          useApp.setError (detail error)
        else
          useApp.setError (Some "An error occurred during login. Please try again.")
    end ;;
    useApp.setLoading false.

End Login.

(** ** [components/DocumentUpload.tsx] *)

Module DocumentUpload.

Definition CATEGORIES : list string := ["TGO"; "LENS"; "AO"; "AIC"].
Definition STATUS_OPTIONS : list string := ["Active"; "Inactive"].
Definition ACCESS_OPTIONS : list string := ["Internal"; "External"].

Definition emptyForm : UploadForm :=
  {| form_file := None;
     form_description := "";
     form_category := default "" (head CATEGORIES);
     form_status := default "" (head STATUS_OPTIONS);
     form_access := default "" (head ACCESS_OPTIONS) |}.

Definition allowedTypes : list string := ["application/pdf"; "text/plain"; "text/markdown"].
Definition allowedExtensions : list string := [".pdf"; ".txt"; ".md"].

Definition isValidType (file : File) : bool :=
  bool_decide (file_type file ∈ allowedTypes)
  || existsb (λ ext, endsWith (toLowerCase (file_name file)) ext) allowedExtensions.

Definition maxSize : Z := 10 * 1024 * 1024.

Definition handleFileSelect (file : File) : task unit :=
  if negb (isValidType file) then
    useApp.setError (Some "Please select a PDF, TXT, or Markdown file.")
  else if bool_decide (maxSize < file_size file)%Z then
    useApp.setError (Some "File size must be less than 10MB.")
  else
    emit (SetUploadFormFile file) ;;
    useApp.setError None.

(** [handleFileInputChange], and [handleDrop] after it has reset
    [dragActive]: the first of the files, if there is one. *)
Definition handleFiles (files : list File) : task unit :=
  match files with
  | file :: _ => handleFileSelect file
  | [] => Finish tt
  end.

Definition quote : string := String (ascii_of_nat 34) "".

Definition handleSubmit (uploadForm : UploadForm) : task unit :=
  match form_file uploadForm with
  | Some file =>
      if isEmpty (trim (form_description uploadForm)) then
        useApp.setError (Some "Please select a file and provide a description.")
      else
        useApp.setLoading true ;;
        useApp.setError None ;;
        r ← documentsApi.uploadDocument
              {| upload_file := file;
                 upload_description := trim (form_description uploadForm);
                 upload_category := form_category uploadForm;
                 upload_status := form_status uploadForm;
                 upload_access := form_access uploadForm |} ;
        match r with
        | Resolved res =>
            emit (SetUploadSuccess
                    (Some ("Document " +:+ quote +:+ filename res +:+ quote
                           +:+ " uploaded successfully!"))) ;;
            emit (SetUploadForm emptyForm) ;;
            emit ClearFileInput
        | Rejected => useApp.setError (Some "Failed to upload document. Please try again.")
        end ;;
        useApp.setLoading false
  | None => useApp.setError (Some "Please select a file and provide a description.")
  end.

End DocumentUpload.

(** ** [components/UsersFeedback.tsx] *)

Module UsersFeedback.

(** [expandedItems] is a JS [Set] read through [has] only; the copy
    [new Set(expandedItems)] is the value itself here. *)
Definition toggleExpanded (expandedItems : gset string) (itemId : string) : gset string :=
  if bool_decide (itemId ∈ expandedItems)
  then expandedItems ∖ {[itemId]}
  else expandedItems ∪ {[itemId]}.

Definition truncateText (text : string) (maxLength : nat) : string :=
  if bool_decide (String.length text ≤ maxLength) then text
  else substring0 maxLength text +:+ "...".

End UsersFeedback.

(** ** [components/DocumentManagement.tsx] *)

Module DocumentManagement.

(** [setDocumentsToDelete(prev => ...)] *)
Definition toggleDeleteSelection (prev : gset string) (documentId : string) : gset string :=
  if bool_decide (documentId ∈ prev)
  then prev ∖ {[documentId]}
  else prev ∪ {[documentId]}.

End DocumentManagement.

(** Actions that append a message, and actions that put another list in
    the place of the messages. *)
Definition adds_message (a : AppAction) : bool :=
  match a with ADD_MESSAGE _ => true | _ => false end.

Definition replaces_messages (a : AppAction) : bool :=
  match a with SET_MESSAGES _ | LOGOUT => true | _ => false end.

(** A handler all of whose calls, on every branch, satisfy [P]. *)
Inductive only {T} (P : call → Prop) : handler T → Prop :=
| only_Done x : only P (Done x)
| only_Do c k : P c → (∀ r, only P (k r)) → only P (Do c k).

(** Calls that leave the store alone or replace a message in place, and do
    not reach the backend. *)
Definition quiet (c : call) : Prop :=
  match c with
  | Dispatch a => updates_message a = true
  | SendMessage _ | SubmitFeedback _ => False
  | _ => True
  end.

(** The update that shows [text] in the assistant message at [messageIndex]. *)
Definition showing (messageIndex : Z) (text : string) : AppAction :=
  UPDATE_MESSAGE messageIndex (mkMessage assistant text).

(** A task all of whose events, on every branch, satisfy [P]. *)
Inductive Only {T} (P : event → Prop) : task T → Prop :=
| Only_Finish x : Only P (Finish x)
| Only_Step e k : P e → (∀ r, Only P (k r)) → Only P (Step e k).

(** A LOGIN is sound when the user it stores is marked as logged in: that
    mark is what [App.tsx] tests to leave the login form. *)
Definition soundAction (a : AppAction) : Prop :=
  match a with
  | LOGIN u => isLoggedIn u = true
  | _ => True
  end.

Definition soundCall (c : call) : Prop :=
  match c with Dispatch a => soundAction a | _ => True end.

Definition soundEvent (e : event) : Prop :=
  match e with Store a => soundAction a | _ => True end.

Definition userIsLoggedIn (s : AppState) : Prop :=
  ∀ u, user s = Some u → isLoggedIn u = true.

(** Messages that alternate, a user message first. *)
Definition alternating (msgs : list ChatMessage) : Prop :=
  ∀ i m, msgs !! i = Some m → role m = if Nat.even i then user_role else assistant.

(** ** Sample data *)

Definition kamala : User :=
  {| id := 1; username := "kamala"; user_type := Support;
     full_name := None; email := None; is_active := true; isLoggedIn := true |}.

Definition hello : ChatMessage := mkMessage user_role "Hello".
Definition hiThere : ChatMessage := mkMessage assistant "Hi there".

(** A logged-in session on a chat that is not persisted yet. *)
Definition freshChat : AppState :=
  {| user := Some kamala; currentChatId := Some sentinel; messages := [];
     chatHistory := []; isLoading := false; error := None;
     needsHistoryRefresh := false |}.

(** A logged-in session on the persisted chat ["abc123"]. *)
Definition savedChat : AppState :=
  {| user := Some kamala; currentChatId := Some "abc123";
     messages := [hello; hiThere];
     chatHistory := []; isLoading := false; error := None;
     needsHistoryRefresh := false |}.

(** [freshChat] after a send of "Hello" that the backend rejected. *)
Definition afterFailedSend : AppState :=
  {| user := Some kamala; currentChatId := Some sentinel;
     messages := [hello; mkMessage assistant ChatPanel.apology];
     chatHistory := []; isLoading := false;
     error := Some "Failed to send message";
     needsHistoryRefresh := false |}.

(** A history entry, a server that answers every request, and one that
    rejects every request. *)
Definition firstChat : ChatHistory :=
  {| history_id := "abc123"; title := "Hello"; history_timestamp := "2025-01-01T10:00:00";
     history_username := "kamala" |}.

Definition reportPdf : File :=
  {| file_name := "Report.PDF"; file_type := ""; file_size := 2048 |}.

Definition answeringServer : Server :=
  {| user_history := λ _, Resolved [firstChat];
     chat_messages := λ _ _, Resolved [hello; hiThere];
     auth_login := λ _ _,
       inl {| success := true; login_message := "Login successful";
              login_user := Some {| id := 1; username := "kamala"; user_type := Support;
                                    full_name := None; email := None; is_active := true;
                                    isLoggedIn := false |} |};
     upload_document := λ upload,
       Resolved {| upload_message := "stored"; filename := file_name (upload_file upload) |} |}.

Definition rejectingServer : Server :=
  {| user_history := λ _, Rejected;
     chat_messages := λ _ _, Rejected;
     auth_login := λ _ _, inr {| status := Some 401%Z; detail := None |};
     upload_document := λ _, Rejected |}.

Definition acceptingBackend : Backend :=
  {| chat_send := λ _, Resolved {| response := "Hi there"; chat_id := "abc123" |};
     chat_feedback := λ _, Resolved {| fb_message := "ok"; feedback_id := "f1" |};
     auth_logout := Resolved tt |}.

Definition failingBackend : Backend :=
  {| chat_send := λ _, Rejected; chat_feedback := λ _, Rejected;
     auth_logout := Rejected |}.

Arguments dispatchAll : simpl never.
Arguments mapAt : simpl never.
Arguments slice_0_m1 : simpl never.
Arguments ChatPanel.simulateStreamingResponse : simpl never.
Arguments Chat.simulateStreamingResponse : simpl never.

(** ** Facts about [mapAt] *)

Section MapAt.
Context (target : Z) (f : ChatMessage → ChatMessage).

Lemma mapAt_length msgs : length (mapAt target f msgs) = length msgs.
Proof. apply length_imap. Qed.

Lemma mapAt_lookup msgs (i : nat) :
  mapAt target f msgs !! i =
    (λ msg, if bool_decide (Z.of_nat i = target) then f msg else msg) <$> msgs !! i.
Proof. unfold mapAt. by rewrite list_lookup_imap. Qed.

Lemma mapAt_lookup_eq msgs (i : nat) :
  Z.of_nat i = target → mapAt target f msgs !! i = f <$> msgs !! i.
Proof.
  intros Hi. rewrite mapAt_lookup.
  destruct (msgs !! i); simpl; [|done]. by rewrite bool_decide_eq_true_2.
Qed.

Lemma mapAt_lookup_ne msgs (i : nat) :
  Z.of_nat i ≠ target → mapAt target f msgs !! i = msgs !! i.
Proof.
  intros Hi. rewrite mapAt_lookup.
  destruct (msgs !! i); simpl; [|done]. by rewrite bool_decide_eq_false_2.
Qed.

Lemma mapAt_out_of_bounds msgs :
  ¬ inBounds msgs target → mapAt target f msgs = msgs.
Proof.
  intros Hout. apply list_eq. intros i. rewrite mapAt_lookup.
  destruct (msgs !! i) as [msg|] eqn:Hi; simpl; [|done].
  apply lookup_lt_Some in Hi.
  rewrite bool_decide_eq_false_2; [done|].
  unfold inBounds in Hout. lia.
Qed.

End MapAt.

(** Replacing in place the element that follows a prefix. *)
Lemma mapAt_middle (f : ChatMessage → ChatMessage) before x after :
  mapAt (Z.of_nat (length before)) f (before ++ x :: after) = before ++ f x :: after.
Proof.
  apply list_eq. intros i. rewrite mapAt_lookup.
  destruct (decide (i < length before)) as [Hlt|Hge].
  - rewrite !lookup_app_l by done.
    destruct (before !! i); simpl; [|done].
    rewrite bool_decide_eq_false_2 by lia. done.
  - rewrite !lookup_app_r by lia.
    destruct (i - length before) as [|j] eqn:Hj; simpl.
    + rewrite bool_decide_eq_true_2 by lia. done.
    + destruct (after !! j); simpl; [|done].
      rewrite bool_decide_eq_false_2 by lia. done.
Qed.

(** ** JS strings and arrays *)

Lemma isEmpty_true (s : string) : isEmpty s = true ↔ s = "".
Proof. by destruct s. Qed.

Lemma isEmpty_false (s : string) : isEmpty s = false ↔ s ≠ "".
Proof. by destruct s. Qed.

Lemma trimStart_whitespaceOnly (s : string) :
  whitespaceOnly s = true → trimStart s = "".
Proof.
  unfold whitespaceOnly. induction s as [|c s IH]; simpl; [done|].
  intros [Hc Hs]%andb_true_iff. rewrite Hc. auto.
Qed.

Lemma trimStart_head (s : string) :
  match trimStart s with
  | EmptyString => whitespaceOnly s = true
  | String c _ => isWhiteSpace c = false
  end.
Proof.
  unfold whitespaceOnly. induction s as [|c s IH]; simpl; [done|].
  destruct (isWhiteSpace c) eqn:Hc; simpl; [exact IH | by rewrite Hc].
Qed.

(** [trim] yields the empty string exactly on the inputs made of white space
    only (the empty input among them). *)
Lemma trim_empty_iff (s : string) :
  trim s = "" ↔ whitespaceOnly s = true.
Proof.
  unfold trim. split.
  - intros Ht. pose proof (trimStart_head s) as Hhead.
    destruct (trimStart s) as [|c t]; [done|].
    simpl in Ht. rewrite Hhead in Ht. done.
  - intros Hs. by rewrite trimStart_whitespaceOnly.
Qed.

Lemma string_app_nil_r (s : string) : s +:+ "" = s.
Proof.
  induction s as [|c s IH]; [done|].
  change (String c (s +:+ "") = String c s). by rewrite IH.
Qed.

Lemma string_app_assoc (s1 s2 s3 : string) : (s1 +:+ s2) +:+ s3 = s1 +:+ (s2 +:+ s3).
Proof.
  induction s1 as [|c s1 IH]; [done|].
  change (String c ((s1 +:+ s2) +:+ s3) = String c (s1 +:+ (s2 +:+ s3))). by rewrite IH.
Qed.

Lemma split_not_nil sep s : split sep s ≠ [].
Proof.
  destruct s as [|c s]; simpl; [done|].
  destruct (Ascii.eqb c sep); [done|]. by destruct (split sep s).
Qed.

(** Joining the pieces of a split with the separator gives the string back. *)
Lemma split_join (sep : ascii) (s : string) word rest :
  split sep s = word :: rest →
  word +:+ foldr (λ w joined, String sep w +:+ joined) "" rest = s.
Proof.
  revert word rest. induction s as [|c s IH]; intros word rest; simpl.
  - by intros [= <- <-].
  - destruct (Ascii.eqb c sep) eqn:Hc.
    + apply Ascii.eqb_eq in Hc as ->. intros [= <- <-].
      destruct (split sep s) as [|w ws] eqn:Hsplit; [by apply split_not_nil in Hsplit|].
      simpl. change (String sep (w +:+ foldr (λ w joined, String sep w +:+ joined) "" ws)
                     = String sep s).
      by rewrite (IH w ws).
    + destruct (split sep s) as [|w ws] eqn:Hsplit; [by apply split_not_nil in Hsplit|].
      intros [= <- <-].
      change (String c (w +:+ foldr (λ w joined, String sep w +:+ joined) "" ws)
              = String c s).
      by rewrite (IH w ws).
Qed.

Lemma at_index_nat {A} (arr : list A) (i : nat) : at_index arr (Z.of_nat i) = arr !! i.
Proof.
  unfold at_index. rewrite bool_decide_eq_true_2 by lia. by rewrite Nat2Z.id.
Qed.

(** ** Running handlers *)

Lemma dispatchAll_nil s : dispatchAll s [] = s.
Proof. done. Qed.

Lemma dispatchAll_cons s a actions :
  dispatchAll s (a :: actions) = dispatchAll (appReducer s a) actions.
Proof. done. Qed.

Lemma dispatchAll_app s actions actions' :
  dispatchAll s (actions ++ actions') = dispatchAll (dispatchAll s actions) actions'.
Proof. apply foldl_app. Qed.

Lemma dispatched_app (calls calls' : list call) :
  dispatched (calls ++ calls') = dispatched calls ++ dispatched calls'.
Proof.
  induction calls as [|c calls IH]; simpl; [done|].
  destruct c; simpl; by rewrite ?IH.
Qed.

Lemma dispatched_showing messageIndex (texts : list string) :
  dispatched ((λ text, Dispatch (showing messageIndex text)) <$> texts)
  = showing messageIndex <$> texts.
Proof.
  induction texts as [|text texts IH]; [done|].
  rewrite !fmap_cons. cbn [dispatched]. by rewrite IH.
Qed.

(** A run leaves the store it started from after the actions it dispatched,
    in order, and makes the calls of [trace]. *)
Lemma run_trace {T} (b : Backend) (p : handler T) (s : AppState) :
  run b p s = (dispatchAll s (dispatched (trace b p)), trace b p).
Proof.
  revert s. induction p as [x|c k IH]; intros s; simpl; [done|].
  rewrite IH. by destruct c.
Qed.

Lemma trace_bind {A B} (b : Backend) (p : handler A) (q : A → handler B) :
  trace b (p ≫= q) = trace b p ++ trace b (q (value b p)).
Proof. induction p as [x|c k IH]; simpl; [done|]. f_equal. apply IH. Qed.

Lemma only_bind {A B} (P : call → Prop) (p : handler A) (q : A → handler B) :
  only P p → (∀ x, only P (q x)) → only P (p ≫= q).
Proof.
  intros Hp Hq. induction Hp as [x|c k Hc _ IH]; simpl.
  - apply Hq.
  - constructor; [done|]. intros r. apply IH.
Qed.

Lemma only_perform (P : call → Prop) (c : call) : P c → only P (perform c).
Proof. intros Hc. constructor; [done|]. intros r. constructor. Qed.

Lemma only_trace {T} (P : call → Prop) (b : Backend) (p : handler T) :
  only P p → Forall P (trace b p).
Proof.
  induction 1 as [x|c k Hc _ IH]; simpl; constructor; [done|]. apply IH.
Qed.

(** Walks down the calls of a handler that is already in head normal form. *)
Ltac only_steps :=
  repeat first
    [ apply only_Done
    | apply only_Do; [simpl; done | intros ?] ].

(** ** The reducer *)

Lemma add_messages (s : AppState) (adds : list ChatMessage) :
  messages (dispatchAll s (ADD_MESSAGE <$> adds)) = messages s ++ adds.
Proof.
  revert s. induction adds as [|m adds IH]; intros s.
  - symmetry. apply app_nil_r.
  - rewrite fmap_cons, dispatchAll_cons, IH. simpl. by rewrite <- app_assoc.
Qed.

Lemma update_messages_length (s : AppState) (ups : list (Z * ChatMessage)) :
  length (messages (dispatchAll s (uncurry UPDATE_MESSAGE <$> ups))) = length (messages s).
Proof.
  revert s. induction ups as [|[j m] ups IH]; intros s; [done|].
  rewrite fmap_cons, dispatchAll_cons, IH. apply mapAt_length.
Qed.

Lemma update_messages_untargeted (s : AppState) (ups : list (Z * ChatMessage)) (i : nat) :
  Z.of_nat i ∉ ups.*1 →
  messages (dispatchAll s (uncurry UPDATE_MESSAGE <$> ups)) !! i = messages s !! i.
Proof.
  revert s. induction ups as [|[j m] ups IH]; intros s Hi; [done|].
  rewrite fmap_cons, not_elem_of_cons in Hi. destruct Hi as [Hij Hi].
  rewrite fmap_cons, dispatchAll_cons, IH by done.
  apply mapAt_lookup_ne. simpl in Hij. congruence.
Qed.

(** Updates that all target the element after [before] leave the last of
    their payloads there. *)
Lemma updates_same_index (s : AppState) before x after (payloads : list ChatMessage) :
  messages s = before ++ x :: after →
  messages (dispatchAll s (UPDATE_MESSAGE (Z.of_nat (length before)) <$> payloads))
  = before ++ default x (last payloads) :: after.
Proof.
  revert s x. induction payloads as [|m payloads IH]; intros s x Hs; [done|].
  rewrite fmap_cons, dispatchAll_cons.
  rewrite (IH _ m); [|simpl; by rewrite Hs, mapAt_middle].
  rewrite last_cons. by destruct (last payloads).
Qed.

Lemma updates_keep_frame (s : AppState) (actions : list AppAction) :
  Forall (λ a, updates_message a = true) actions →
  sameFrame s (dispatchAll s actions) ∧
  length (messages (dispatchAll s actions)) = length (messages s) ∧
  List.filter sets_current_chat actions = [] ∧
  List.filter sets_needs_refresh actions = [].
Proof.
  intros Hall. revert s. induction Hall as [|a actions Ha _ IH]; intros s.
  - by unfold sameFrame.
  - destruct a; try discriminate Ha. rewrite dispatchAll_cons.
    destruct (IH (appReducer s (UPDATE_MESSAGE index message)))
      as (Hframe & Hlen & Hchat & Hrefresh).
    simpl in *. rewrite Hlen, mapAt_length. done.
Qed.

(** C2. After any ADD_MESSAGE actions followed by UPDATE_MESSAGE actions with
    indices within the bounds of the list, the list has kept its length,
    the message at an updated index is the payload of the latest
    UPDATE_MESSAGE that targets it, and the message at every index no
    update targets is the one that was there, at the same position. *)
Theorem add_then_update_latest_wins
    (s : AppState) (adds : list ChatMessage) (ups : list (Z * ChatMessage)) :
  let base := messages s ++ adds in
  Forall (λ u, inBounds base u.1) ups →
  let s' := dispatchAll s ((ADD_MESSAGE <$> adds) ++ (uncurry UPDATE_MESSAGE <$> ups)) in
  length (messages s') = length base ∧
  (∀ earlier later (i : nat) m,
     ups = earlier ++ (Z.of_nat i, m) :: later → Z.of_nat i ∉ later.*1 →
     messages s' !! i = Some m) ∧
  (∀ i : nat, Z.of_nat i ∉ ups.*1 → messages s' !! i = base !! i).
Proof.
  intros base Hin s'. subst s'. rewrite dispatchAll_app.
  set (s1 := dispatchAll s (ADD_MESSAGE <$> adds)).
  assert (Hs1 : messages s1 = base) by apply add_messages.
  split; [|split].
  - by rewrite update_messages_length, Hs1.
  - intros earlier later i m -> Hlater.
    rewrite fmap_app, fmap_cons, dispatchAll_app, dispatchAll_cons.
    set (s2 := dispatchAll s1 (uncurry UPDATE_MESSAGE <$> earlier)).
    rewrite update_messages_untargeted by done. simpl.
    rewrite mapAt_lookup_eq by done.
    apply Forall_app in Hin as [_ Hin]. apply Forall_cons in Hin as [Hi _].
    unfold inBounds in Hi. simpl in Hi.
    assert (Hlen : i < length (messages s2)).
    { subst s2. rewrite update_messages_length, Hs1. lia. }
    apply lookup_lt_is_Some_2 in Hlen as [old ->]. done.
  - intros i Hi. by rewrite update_messages_untargeted, Hs1.
Qed.

Lemma add_then_update_latest_wins_witness :
  Forall (λ u, inBounds (messages savedChat ++ [hello]) u.1)
    [(1%Z, hello); (2%Z, hiThere); (1%Z, mkMessage assistant "Hi")] ∧
  messages
    (dispatchAll savedChat
       [ADD_MESSAGE hello; UPDATE_MESSAGE 1 hello; UPDATE_MESSAGE 2 hiThere;
        UPDATE_MESSAGE 1 (mkMessage assistant "Hi")]) !! 1
  = Some (mkMessage assistant "Hi").
Proof.
  assert (Hin : Forall (λ u, inBounds (messages savedChat ++ [hello]) u.1)
    [(1%Z, hello); (2%Z, hiThere); (1%Z, mkMessage assistant "Hi")]).
  { repeat constructor; simpl; lia. }
  split; [exact Hin|].
  pose proof (add_then_update_latest_wins savedChat [hello] _ Hin) as (_ & Hlatest & _).
  apply (Hlatest [(1%Z, hello); (2%Z, hiThere)] [] 1 (mkMessage assistant "Hi"));
    [reflexivity | simpl; apply not_elem_of_nil].
Defined.

(** C9. An UPDATE_MESSAGE whose index is negative or at least the length of
    the list leaves the message list as it was (same length, same element at
    every index), and with it the whole state. *)
Theorem update_message_out_of_bounds (s : AppState) (index : Z) (m : ChatMessage) :
  (index < 0 ∨ Z.of_nat (length (messages s)) ≤ index)%Z →
  let s' := appReducer s (UPDATE_MESSAGE index m) in
  messages s' = messages s ∧
  length (messages s') = length (messages s) ∧
  (∀ i : nat, messages s' !! i = messages s !! i) ∧
  s' = s.
Proof.
  intros Hout. simpl.
  assert (Heq : mapAt index (λ _, m) (messages s) = messages s).
  { apply mapAt_out_of_bounds. unfold inBounds. lia. }
  rewrite Heq. repeat split. by destruct s.
Qed.

Lemma update_message_out_of_bounds_witness :
  (2 < 0 ∨ Z.of_nat (length (messages savedChat)) ≤ 2)%Z ∧
  messages (appReducer savedChat (UPDATE_MESSAGE 2 hello)) = messages savedChat.
Proof.
  assert (Hout : (2 < 0 ∨ Z.of_nat (length (messages savedChat)) ≤ 2)%Z)
    by (right; simpl; lia).
  split; [exact Hout|].
  exact (proj1 (update_message_out_of_bounds savedChat 2 hello Hout)).
Defined.

(** C10. An in-bounds UPDATE_MESSAGE_FEEDBACK at index [i] changes the
    feedback field of the message at [i] and nothing else: that message
    keeps its role, content and timestamp, the messages at the other
    indices and the length of the list are unchanged, and so are the fields
    of the state other than messages. *)
Theorem update_message_feedback_frame (s : AppState) (i : nat) (fb : option Feedback) :
  inBounds (messages s) (Z.of_nat i) →
  let s' := appReducer s (UPDATE_MESSAGE_FEEDBACK (Z.of_nat i) fb) in
  (∃ old new,
     messages s !! i = Some old ∧ messages s' !! i = Some new ∧
     feedback new = Some fb ∧
     role new = role old ∧ content new = content old ∧
     timestamp new = timestamp old) ∧
  (∀ j : nat, j ≠ i → messages s' !! j = messages s !! j) ∧
  length (messages s') = length (messages s) ∧
  sameFrame s s'.
Proof.
  intros [_ Hi]. simpl. split; [|split; [|split]].
  - assert (Hlt : i < length (messages s)) by lia.
    apply lookup_lt_is_Some_2 in Hlt as [old Hold].
    exists old, (withFeedback old fb).
    rewrite mapAt_lookup_eq, Hold by done. done.
  - intros j Hj. apply mapAt_lookup_ne. lia.
  - apply mapAt_length.
  - by unfold sameFrame.
Qed.

Lemma update_message_feedback_frame_witness :
  inBounds (messages savedChat) (Z.of_nat 1) ∧
  messages (appReducer savedChat (UPDATE_MESSAGE_FEEDBACK 1 (Some liked))) !! 0
  = messages savedChat !! 0.
Proof.
  assert (Hin : inBounds (messages savedChat) (Z.of_nat 1))
    by (unfold inBounds; simpl; lia).
  split; [exact Hin|].
  pose proof (update_message_feedback_frame savedChat 1 (Some liked) Hin) as (_ & Hrest & _).
  apply (Hrest 0). lia.
Defined.

(** ** The typing simulation *)

Lemma quiet_dispatched (calls : list call) :
  Forall quiet calls → Forall (λ a, updates_message a = true) (dispatched calls).
Proof.
  induction 1 as [|c calls Hc _ IH]; simpl; [constructor|].
  destruct c; simpl in *; try done. by constructor.
Qed.

(** What a run of quiet calls leaves alone. *)
Lemma quiet_run {T} (b : Backend) (p : handler T) (s : AppState) :
  only quiet p →
  let actions := dispatched (trace b p) in
  sameFrame s (dispatchAll s actions) ∧
  length (messages (dispatchAll s actions)) = length (messages s) ∧
  List.filter sets_current_chat actions = [] ∧
  List.filter sets_needs_refresh actions = [].
Proof. intros Hp. by apply updates_keep_frame, quiet_dispatched, only_trace. Qed.

(** Rewrites with what a quiet tail of a run leaves alone. *)
Ltac quiet_tail b lemma :=
  match goal with
  | |- context [dispatchAll ?s (dispatched (trace b ?p))] =>
      let Hframe := fresh "Hframe" in
      let Hchat := fresh "Hchat" in
      let Hrefresh := fresh "Hrefresh" in
      destruct (quiet_run b p s lemma)
        as ((_ & Hframe & _ & _ & _ & Hrefresh) & _ & Hchat & Hneeds);
      rewrite ?Hframe, ?Hrefresh, ?Hchat, ?Hneeds; clear Hframe Hrefresh Hchat Hneeds
  end.

Lemma ChatPanel_streamingInterval_quiet fuel fullResponse messageIndex currentIndex :
  only quiet (ChatPanel.streamingInterval fuel fullResponse messageIndex currentIndex).
Proof.
  revert currentIndex. induction fuel as [|fuel IH]; intros currentIndex; simpl.
  - constructor.
  - case_bool_decide; only_steps. apply IH.
Qed.

Lemma ChatPanel_streaming_quiet fullResponse messageIndex :
  only quiet (ChatPanel.simulateStreamingResponse fullResponse messageIndex).
Proof.
  unfold ChatPanel.simulateStreamingResponse.
  apply only_bind; [by apply only_perform|]; intros _.
  apply only_bind; [by apply (only_perform quiet (Dispatch _))|]; intros _.
  apply ChatPanel_streamingInterval_quiet.
Qed.

Lemma Chat_streamingInterval_quiet messageIndex words wordIndex currentResponse :
  only quiet (Chat.streamingInterval messageIndex words wordIndex currentResponse).
Proof.
  revert wordIndex currentResponse.
  induction words as [|word rest IH]; intros wordIndex currentResponse; simpl;
    only_steps. apply IH.
Qed.

Lemma Chat_streaming_quiet fullResponse messageIndex :
  only quiet (Chat.simulateStreamingResponse fullResponse messageIndex).
Proof. apply Chat_streamingInterval_quiet. Qed.

Lemma Chat_streaming_then_done_quiet fullResponse messageIndex :
  only quiet (Chat.simulateStreamingResponse fullResponse messageIndex ≫= λ _, Done tt).
Proof. apply only_bind; [apply Chat_streaming_quiet | intros; constructor]. Qed.

Lemma ChatPanel_streamingInterval_S fuel fullResponse messageIndex currentIndex :
  ChatPanel.streamingInterval (S fuel) fullResponse messageIndex currentIndex =
  if bool_decide (currentIndex < String.length fullResponse) then
    updateMessage messageIndex
      (mkMessage assistant (substring0 (currentIndex + 8) fullResponse)) ;;
    ChatPanel.streamingInterval fuel fullResponse messageIndex (currentIndex + 8)
  else
    perform (SetIsStreaming false) ;;
    updateMessage messageIndex (mkMessage assistant fullResponse) ;;
    perform FocusInput.
Proof. done. Qed.

(** With enough fuel the interval reaches the tick that clears it: the ticks
    before show partial texts, the last one shows the whole response. *)
Lemma ChatPanel_streamingInterval_clears
    (b : Backend) fuel fullResponse messageIndex currentIndex :
  String.length fullResponse ≤ currentIndex + 8 * fuel →
  ∃ partials,
    trace b (ChatPanel.streamingInterval (S fuel) fullResponse messageIndex currentIndex)
    = ((λ text, Dispatch (showing messageIndex text)) <$> partials)
      ++ [SetIsStreaming false; Dispatch (showing messageIndex fullResponse); FocusInput].
Proof.
  revert currentIndex. induction fuel as [|fuel IH]; intros currentIndex Hfuel;
    rewrite ChatPanel_streamingInterval_S; case_bool_decide; try lia.
  - by exists [].
  - destruct (IH (currentIndex + 8)) as [partials Hpartials]; [lia|].
    exists (substring0 (currentIndex + 8) fullResponse :: partials).
    rewrite trace_bind, Hpartials. done.
  - by exists [].
Qed.

Lemma ChatPanel_streaming_trace (b : Backend) fullResponse messageIndex :
  ∃ partials,
    trace b (ChatPanel.simulateStreamingResponse fullResponse messageIndex)
    = SetIsStreaming true
      :: ((λ text, Dispatch (showing messageIndex text)) <$> partials)
      ++ [SetIsStreaming false; Dispatch (showing messageIndex fullResponse); FocusInput].
Proof.
  destruct (ChatPanel_streamingInterval_clears b (String.length fullResponse)
              fullResponse messageIndex 5) as [partials Hpartials]; [lia|].
  exists (substring0 5 fullResponse :: partials).
  unfold ChatPanel.simulateStreamingResponse.
  rewrite !trace_bind, Hpartials. done.
Qed.

Lemma ChatPanel_streaming_fills (b : Backend) (s : AppState) fullResponse before x after :
  messages s = before ++ x :: after →
  messages
    (dispatchAll s
       (dispatched
          (trace b (ChatPanel.simulateStreamingResponse fullResponse
                      (Z.of_nat (length before))))))
  = before ++ mkMessage assistant fullResponse :: after.
Proof.
  intros Hs. destruct (ChatPanel_streaming_trace b fullResponse (Z.of_nat (length before)))
    as [partials ->].
  cbn [dispatched]. rewrite dispatched_app, dispatched_showing. cbn [dispatched].
  unfold showing.
  replace (((λ text, UPDATE_MESSAGE (Z.of_nat (length before)) (mkMessage assistant text))
              <$> partials)
           ++ [UPDATE_MESSAGE (Z.of_nat (length before)) (mkMessage assistant fullResponse)])
    with (UPDATE_MESSAGE (Z.of_nat (length before))
            <$> ((mkMessage assistant <$> partials) ++ [mkMessage assistant fullResponse])).
  - rewrite (updates_same_index s before x after) by done. by rewrite last_snoc.
  - rewrite fmap_app, <- list_fmap_compose. done.
Qed.

Lemma Chat_streamingInterval_value (b : Backend) messageIndex words wordIndex currentResponse :
  0 < wordIndex →
  value b (Chat.streamingInterval messageIndex words wordIndex currentResponse)
  = currentResponse +:+ foldr (λ w joined, String " " w +:+ joined) "" words.
Proof.
  revert wordIndex currentResponse.
  induction words as [|word rest IH]; intros wordIndex currentResponse Hpos; simpl.
  - by rewrite string_app_nil_r.
  - rewrite IH by lia. rewrite bool_decide_eq_true_2 by done.
    by rewrite !string_app_assoc.
Qed.

(** The promise of [simulateStreamingResponse] resolves with the response. *)
Lemma Chat_streaming_value (b : Backend) fullResponse messageIndex :
  value b (Chat.simulateStreamingResponse fullResponse messageIndex) = fullResponse.
Proof.
  unfold Chat.simulateStreamingResponse.
  destruct (split " " fullResponse) as [|word rest] eqn:Hsplit;
    [by apply split_not_nil in Hsplit|].
  simpl. rewrite Chat_streamingInterval_value by lia.
  by apply split_join.
Qed.

Lemma Chat_streamingInterval_trace (b : Backend) messageIndex words wordIndex currentResponse :
  ∃ partials,
    trace b (Chat.streamingInterval messageIndex words wordIndex currentResponse)
    = ((λ text, Dispatch (showing messageIndex text)) <$> partials) ++ [SetIsStreaming false] ∧
    default currentResponse (last partials)
    = value b (Chat.streamingInterval messageIndex words wordIndex currentResponse).
Proof.
  revert wordIndex currentResponse.
  induction words as [|word rest IH]; intros wordIndex currentResponse.
  - by exists [].
  - set (next := currentResponse +:+ (if bool_decide (0 < wordIndex) then " " else "") +:+ word).
    destruct (IH (S wordIndex) next) as (partials & Htrace & Hlast).
    exists (next :: partials). split.
    + simpl. fold next. by rewrite Htrace.
    + rewrite last_cons. simpl. fold next. rewrite <- Hlast. by destruct (last partials).
Qed.

Lemma Chat_streaming_fills (b : Backend) (s : AppState) fullResponse before x after :
  messages s = before ++ x :: after →
  messages
    (dispatchAll s
       (dispatched
          (trace b (Chat.simulateStreamingResponse fullResponse (Z.of_nat (length before))
                    ≫= λ _, Done tt))))
  = before ++ mkMessage assistant fullResponse :: after.
Proof.
  intros Hs. rewrite trace_bind. simpl. rewrite app_nil_r.
  pose proof (Chat_streaming_value b fullResponse (Z.of_nat (length before))) as Hvalue.
  unfold Chat.simulateStreamingResponse in *.
  destruct (split " " fullResponse) as [|word rest] eqn:Hsplit;
    [by apply split_not_nil in Hsplit|].
  simpl in *.
  destruct (Chat_streamingInterval_trace b (Z.of_nat (length before)) rest 1 ("" +:+ "" +:+ word))
    as (partials & -> & Hlast).
  rewrite Hvalue in Hlast.
  rewrite dispatched_app, dispatched_showing. cbn [dispatched]. rewrite app_nil_r.
  unfold showing.
  replace ((λ text, UPDATE_MESSAGE (Z.of_nat (length before)) (mkMessage assistant text))
             <$> partials)
    with (UPDATE_MESSAGE (Z.of_nat (length before)) <$> (mkMessage assistant <$> partials))
    by (by rewrite <- list_fmap_compose).
  rewrite dispatchAll_cons.
  rewrite (updates_same_index _ before (mkMessage assistant ("" +:+ "" +:+ word)) after);
    [|simpl; by rewrite Hs, mapAt_middle].
  rewrite fmap_last, <- Hlast. by destruct (last partials).
Qed.

(** ** Sending a message *)

(** C3. When the input is empty or made of white space only, or when no user
    is logged in, [handleSendMessage] returns at once in both components: it
    makes no call at all, so nothing is appended, the store is unchanged and
    no request is sent. *)
Theorem send_blank_or_anonymous_is_noop
    (b : Backend) (state store : AppState) (inputValue : string) (isStreaming : bool) :
  whitespaceOnly inputValue = true ∨ user state = None →
  ChatPanel.handleSendMessage state inputValue = Done tt ∧
  Chat.handleSendMessage state inputValue isStreaming = Done tt ∧
  run b (ChatPanel.handleSendMessage state inputValue) store = (store, []) ∧
  run b (Chat.handleSendMessage state inputValue isStreaming) store = (store, []).
Proof.
  intros Hguard.
  assert (Hpanel : ChatPanel.handleSendMessage state inputValue = Done tt).
  { unfold ChatPanel.handleSendMessage.
    destruct Hguard as [Hblank%trim_empty_iff | Huser].
    - by rewrite Hblank.
    - rewrite Huser. by destruct (isEmpty _). }
  assert (Hpage : Chat.handleSendMessage state inputValue isStreaming = Done tt).
  { unfold Chat.handleSendMessage.
    destruct Hguard as [Hblank%trim_empty_iff | Huser].
    - by rewrite Hblank.
    - rewrite Huser. by destruct (isEmpty _). }
  rewrite Hpanel, Hpage. done.
Qed.

Lemma send_blank_or_anonymous_is_noop_witness :
  (whitespaceOnly "   " = true ∨ user savedChat = None) ∧
  run acceptingBackend (ChatPanel.handleSendMessage savedChat "   ") savedChat
    = (savedChat, []) ∧
  (whitespaceOnly "Hello" = true ∨ user initialState = None) ∧
  run acceptingBackend (Chat.handleSendMessage initialState "Hello" false) initialState
    = (initialState, []).
Proof.
  assert (Hblank : whitespaceOnly "   " = true ∨ user savedChat = None)
    by (left; reflexivity).
  assert (Hanon : whitespaceOnly "Hello" = true ∨ user initialState = None)
    by (right; reflexivity).
  split; [exact Hblank|]. split.
  - exact (proj1 (proj2 (proj2
      (send_blank_or_anonymous_is_noop acceptingBackend savedChat savedChat "   " false Hblank)))).
  - split; [exact Hanon|].
    exact (proj2 (proj2 (proj2
      (send_blank_or_anonymous_is_noop acceptingBackend initialState initialState "Hello" false Hanon)))).
Defined.

(** C1. A send that passes the guard on a chat whose id is the sentinel, and
    whose request the backend resolves with a non-empty chat id, dispatches
    SET_CURRENT_CHAT exactly once, with the returned id, and
    SET_NEEDS_HISTORY_REFRESH exactly once, with true, and leaves the store
    with that id and the flag set; a send on a chat whose id is another
    string dispatches neither and leaves both fields as they were. Both hold
    in ChatPanel.tsx and in Chat.tsx. *)
Theorem send_adopts_backend_chat_id
    (b : Backend) (st : AppState) (inputValue : string) (u : User) :
  user st = Some u → trim inputValue ≠ "" →
  let request :=
    {| req_username := username u;
       req_chat_id := chatIdOrAbsent (currentChatId st);
       user_input := trim inputValue |} in
  let panel := run b (ChatPanel.handleSendMessage st inputValue) st in
  let page := run b (Chat.handleSendMessage st inputValue false) st in
  (∀ resp,
     currentChatId st = Some sentinel →
     chat_send b request = Resolved resp → chat_id resp ≠ "" →
     List.filter sets_current_chat (dispatched panel.2)
       = [SET_CURRENT_CHAT (Some (chat_id resp))] ∧
     List.filter sets_needs_refresh (dispatched panel.2)
       = [SET_NEEDS_HISTORY_REFRESH true] ∧
     currentChatId panel.1 = Some (chat_id resp) ∧
     needsHistoryRefresh panel.1 = true ∧
     List.filter sets_current_chat (dispatched page.2)
       = [SET_CURRENT_CHAT (Some (chat_id resp))] ∧
     List.filter sets_needs_refresh (dispatched page.2)
       = [SET_NEEDS_HISTORY_REFRESH true] ∧
     currentChatId page.1 = Some (chat_id resp) ∧
     needsHistoryRefresh page.1 = true) ∧
  (∀ persisted,
     currentChatId st = Some persisted → persisted ≠ sentinel →
     List.filter sets_current_chat (dispatched panel.2) = [] ∧
     List.filter sets_needs_refresh (dispatched panel.2) = [] ∧
     currentChatId panel.1 = Some persisted ∧
     needsHistoryRefresh panel.1 = needsHistoryRefresh st ∧
     List.filter sets_current_chat (dispatched page.2) = [] ∧
     List.filter sets_needs_refresh (dispatched page.2) = [] ∧
     currentChatId page.1 = Some persisted ∧
     needsHistoryRefresh page.1 = needsHistoryRefresh st).
Proof.
  intros Hu Htrim%isEmpty_false request panel page.
  subst panel page request. rewrite !run_trace.
  unfold ChatPanel.handleSendMessage, Chat.handleSendMessage.
  rewrite Hu, Htrim. split.
  - intros resp Hchat Hresp Hid%isEmpty_false. cbn. rewrite Hresp.
    unfold truthy. rewrite Hid, Hchat, !bool_decide_eq_true_2 by done. cbn.
    rewrite !dispatchAll_cons. cbn.
    quiet_tail b (ChatPanel_streaming_quiet (response resp) (Z.of_nat (length (messages st)) + 1)).
    quiet_tail b (Chat_streaming_then_done_quiet (response resp) (Z.of_nat (length (messages st)) + 1)).
    done.
  - intros persisted Hchat Hne.
    assert (Hnot : bool_decide (currentChatId st = Some sentinel) = false).
    { apply bool_decide_eq_false_2. congruence. }
    assert (Hnull : bool_decide (currentChatId st = None) = false).
    { apply bool_decide_eq_false_2. congruence. }
    cbn. rewrite Hnot, Hnull.
    destruct (chat_send b _) as [resp|]; rewrite ?andb_false_r; cbn;
      rewrite !dispatchAll_cons; cbn.
    + quiet_tail b (ChatPanel_streaming_quiet (response resp) (Z.of_nat (length (messages st)) + 1)).
      quiet_tail b (Chat_streaming_then_done_quiet (response resp) (Z.of_nat (length (messages st)) + 1)).
      done.
    + done.
Qed.

Lemma send_adopts_backend_chat_id_witness :
  (user freshChat = Some kamala ∧ trim "Hello" ≠ "" ∧
   currentChatId freshChat = Some sentinel ∧
   chat_send acceptingBackend
     {| req_username := "kamala"; req_chat_id := None; user_input := "Hello" |}
     = Resolved {| response := "Hi there"; chat_id := "abc123" |} ∧
   "abc123" ≠ "" ∧
   currentChatId
     (run acceptingBackend (ChatPanel.handleSendMessage freshChat "Hello") freshChat).1
     = Some "abc123") ∧
  (user savedChat = Some kamala ∧ trim "Hello" ≠ "" ∧
   currentChatId savedChat = Some "abc123" ∧ "abc123" ≠ sentinel ∧
   currentChatId
     (run acceptingBackend (ChatPanel.handleSendMessage savedChat "Hello") savedChat).1
     = Some "abc123").
Proof.
  assert (Htrim : trim "Hello" ≠ "") by (vm_compute; discriminate).
  assert (Hid : "abc123" ≠ "") by discriminate.
  assert (Hne : "abc123" ≠ sentinel) by (vm_compute; discriminate).
  split.
  - repeat (split; [first [reflexivity | assumption]|]).
    pose proof (send_adopts_backend_chat_id acceptingBackend freshChat "Hello" kamala
                  eq_refl Htrim) as [Hnew _].
    exact (proj1 (proj2 (proj2
      (Hnew {| response := "Hi there"; chat_id := "abc123" |} eq_refl eq_refl Hid)))).
  - repeat (split; [first [reflexivity | assumption]|]).
    pose proof (send_adopts_backend_chat_id acceptingBackend savedChat "Hello" kamala
                  eq_refl Htrim) as [_ Hsaved].
    exact (proj1 (proj2 (proj2 (Hsaved "abc123" eq_refl Hne)))).
Defined.

(** C8, as amended. When the backend rejects the request of a send that
    passed the guard, both components surface the error "Failed to send
    message". ChatPanel.tsx then replaces the empty placeholder, at the
    pre-send message count + 1, with the fixed apology string and keeps the
    user message before it. Chat.tsx writes no apology: it dispatches no
    UPDATE_MESSAGE and replaces the list through SET_MESSAGES, after which
    there is no message at the placeholder's index. *)
Theorem failed_send_surfaces_error
    (b : Backend) (st : AppState) (inputValue : string) (u : User) :
  user st = Some u → trim inputValue ≠ "" →
  chat_send b
    {| req_username := username u;
       req_chat_id := chatIdOrAbsent (currentChatId st);
       user_input := trim inputValue |} = Rejected →
  let placeholderIndex := length (messages st) + 1 in
  let panel := run b (ChatPanel.handleSendMessage st inputValue) st in
  let page := run b (Chat.handleSendMessage st inputValue false) st in
  (error panel.1 = Some "Failed to send message" ∧
   messages panel.1
     = messages st ++ [mkMessage user_role (trim inputValue);
                       mkMessage assistant ChatPanel.apology] ∧
   messages panel.1 !! placeholderIndex = Some (mkMessage assistant ChatPanel.apology)) ∧
  (error page.1 = Some "Failed to send message" ∧
   List.filter updates_message (dispatched page.2) = [] ∧
   messages page.1 !! placeholderIndex = None).
Proof.
  intros Hu Htrim%isEmpty_false Hresp placeholderIndex panel page.
  subst panel page placeholderIndex. rewrite !run_trace.
  unfold ChatPanel.handleSendMessage, Chat.handleSendMessage.
  rewrite Hu, Htrim. cbn. rewrite Hresp. cbn.
  rewrite !dispatchAll_cons, !dispatchAll_nil. cbn.
  set (sent := mkMessage user_role (trim inputValue)).
  assert (Hreplaced :
    mapAt (Z.of_nat (length (messages st)) + 1) (λ _, mkMessage assistant ChatPanel.apology)
      ((messages st ++ [sent]) ++ [mkMessage assistant ""])
    = messages st ++ [sent; mkMessage assistant ChatPanel.apology]).
  { replace (Z.of_nat (length (messages st)) + 1)%Z
      with (Z.of_nat (length (messages st ++ [sent])))
      by (rewrite length_app; simpl; lia).
    rewrite mapAt_middle. by rewrite <- app_assoc. }
  rewrite Hreplaced. repeat split.
  - rewrite lookup_app_r by lia.
    by replace (length (messages st) + 1 - length (messages st)) with 1 by lia.
  - apply lookup_ge_None_2. unfold slice_0_m1. rewrite length_take. lia.
Qed.

Lemma failed_send_surfaces_error_witness :
  user savedChat = Some kamala ∧ trim "Hi" ≠ "" ∧
  chat_send failingBackend
    {| req_username := "kamala"; req_chat_id := Some "abc123"; user_input := "Hi" |}
    = Rejected ∧
  messages (run failingBackend (ChatPanel.handleSendMessage savedChat "Hi") savedChat).1
    = [hello; hiThere; mkMessage user_role "Hi"; mkMessage assistant ChatPanel.apology].
Proof.
  assert (Htrim : trim "Hi" ≠ "") by (vm_compute; discriminate).
  repeat (split; [first [reflexivity | assumption]|]).
  exact (proj1 (proj2 (proj1
    (failed_send_surfaces_error failingBackend savedChat "Hi" kamala
       eq_refl Htrim eq_refl)))).
Defined.

(** C8, as stated, fails in Chat.tsx: on the persisted chat [hello; hiThere],
    a rejected send of "Hi" leaves the list [hello], so the message at the
    placeholder's index 3 is not the apology (there is none). *)
Lemma failed_send_in_Chat_writes_no_apology :
  user savedChat = Some kamala ∧ trim "Hi" ≠ "" ∧
  chat_send failingBackend
    {| req_username := "kamala"; req_chat_id := Some "abc123"; user_input := "Hi" |}
    = Rejected ∧
  let final := (run failingBackend (Chat.handleSendMessage savedChat "Hi" false) savedChat).1 in
  messages final = [hello] ∧
  messages final !! (length (messages savedChat) + 1)
    ≠ Some (mkMessage assistant ChatPanel.apology).
Proof.
  split; [reflexivity|]. split; [vm_compute; discriminate|]. split; [reflexivity|].
  vm_compute. split; [reflexivity | discriminate].
Qed.

(** The scenario of the specification, for both components: a send that the
    backend resolves leaves the sent text and the whole response as the two
    new messages. *)
Lemma resolved_send_messages
    (b : Backend) (st : AppState) (inputValue : string) (u : User) (resp : ChatResponse) :
  user st = Some u → trim inputValue ≠ "" →
  chat_send b
    {| req_username := username u;
       req_chat_id := chatIdOrAbsent (currentChatId st);
       user_input := trim inputValue |} = Resolved resp →
  let expected :=
    messages st ++ [mkMessage user_role (trim inputValue);
                    mkMessage assistant (response resp)] in
  messages (run b (ChatPanel.handleSendMessage st inputValue) st).1 = expected ∧
  messages (run b (Chat.handleSendMessage st inputValue false) st).1 = expected.
Proof.
  intros Hu Htrim%isEmpty_false Hresp expected. subst expected.
  rewrite !run_trace.
  unfold ChatPanel.handleSendMessage, Chat.handleSendMessage.
  rewrite Hu, Htrim. cbn. rewrite Hresp.
  set (sent := mkMessage user_role (trim inputValue)).
  assert (Hindex : (Z.of_nat (length (messages st)) + 1)%Z
                   = Z.of_nat (length (messages st ++ [sent]))).
  { rewrite length_app. simpl. lia. }
  rewrite Hindex.
  assert (Hlist : ∀ last, messages st ++ [sent; last] = (messages st ++ [sent]) ++ [last]).
  { intros last. by rewrite <- app_assoc. }
  rewrite Hlist. split.
  - destruct (truthy (chat_id resp) && bool_decide (currentChatId st = Some sentinel));
      cbn; rewrite !dispatchAll_cons; cbn;
      by apply ChatPanel_streaming_fills with (x := mkMessage assistant "").
  - destruct (bool_decide (currentChatId st = Some sentinel)
              || bool_decide (currentChatId st = None));
      cbn; rewrite !dispatchAll_cons; cbn;
      by apply Chat_streaming_fills with (x := mkMessage assistant "").
Qed.

Example hello_scenario :
  let final := (run acceptingBackend (ChatPanel.handleSendMessage freshChat "Hello") freshChat).1 in
  messages final = [hello; hiThere] ∧ currentChatId final = Some "abc123".
Proof. by vm_compute. Qed.

(** ** Submitting feedback *)

(** The request [handleFeedback] builds for the message at [i]. *)
Lemma handleFeedback_proceeds
    (st : AppState) (i : nat) (tag : Feedback) (u : User) (chatId : string) (m : ChatMessage) :
  messages st !! i = Some m → role m = assistant →
  user st = Some u → currentChatId st = Some chatId → chatId ≠ "" →
  ChatPanel.handleFeedback st (Z.of_nat i) tag =
    (updateMessageFeedback (Z.of_nat i) (Some tag) ;;
     r ← chatApi.submitFeedback
           {| fb_username := username u;
              fb_chat_id := chatId;
              message_index := Z.of_nat i / 2;
              user_message :=
                from_option content "" (at_index (messages st) (Z.of_nat i - 1));
              assistant_message := content m;
              feedback_type := tag |} ;
     match r with
     | Resolved _ => Done tt
     | Rejected =>
         updateMessageFeedback (Z.of_nat i) None ;;
         setError (Some "Failed to submit feedback")
     end).
Proof.
  intros Hm Hrole Hu Hchat Hid%isEmpty_false.
  unfold ChatPanel.handleFeedback.
  rewrite at_index_nat, Hm, Hu, Hchat, Hid, Hrole. simpl.
  by destruct (at_index (messages st) (Z.of_nat i - 1)).
Qed.

(** The early returns of [handleFeedback]. *)
Lemma feedback_early_return (st : AppState) (messageIndex : Z) (tag : Feedback) :
  (∃ m, at_index (messages st) messageIndex = Some m ∧ role m = user_role)
  ∨ at_index (messages st) messageIndex = None
  ∨ user st = None
  ∨ currentChatId st = None ∨ currentChatId st = Some "" →
  ChatPanel.handleFeedback st messageIndex tag = Done tt.
Proof.
  unfold ChatPanel.handleFeedback.
  intros [(m & -> & Hrole)|[->|[->|[->| ->]]]].
  - destruct (user st), (currentChatId st); try done.
    rewrite Hrole. by rewrite orb_true_r.
  - done.
  - by destruct (at_index _ _).
  - by destruct (at_index _ _), (user st).
  - by destruct (at_index _ _), (user st).
Qed.

(** C6. When [handleFeedback] passes its guard on the assistant message at
    index [i], the one request it sends to the feedback endpoint has
    message_index floor(i / 2), user_message the content of the message at
    index i - 1 (the empty string when there is none, as at i = 0),
    assistant_message the content of the message at [i], the chosen tag,
    and the user's name and the current chat id. *)
Theorem feedback_request_fields
    (b : Backend) (st : AppState) (i : nat) (tag : Feedback)
    (u : User) (chatId : string) (m : ChatMessage) :
  messages st !! i = Some m → role m = assistant →
  user st = Some u → currentChatId st = Some chatId → chatId ≠ "" →
  ∃ request,
    network (run b (ChatPanel.handleFeedback st (Z.of_nat i) tag) st).2
      = [SubmitFeedback request] ∧
    message_index request = Z.of_nat (i `div` 2) ∧
    user_message request
      = from_option content "" (at_index (messages st) (Z.of_nat i - 1)) ∧
    (i = 0 → user_message request = "") ∧
    (∀ j previous, i = S j → messages st !! j = Some previous →
       user_message request = content previous) ∧
    assistant_message request = content m ∧
    feedback_type request = tag ∧
    fb_username request = username u ∧
    fb_chat_id request = chatId.
Proof.
  intros Hm Hrole Hu Hchat Hid.
  rewrite (handleFeedback_proceeds st i tag u chatId m) by done.
  eexists. rewrite run_trace. split.
  - cbn. by destruct (chat_feedback b _).
  - split; [cbn [message_index]; by rewrite Nat2Z.inj_div|].
    cbn. split; [done|]. split; [|split].
    + intros ->. done.
    + intros j previous -> Hprev.
      replace (Z.of_nat (S j) - 1)%Z with (Z.of_nat j) by lia.
      by rewrite at_index_nat, Hprev.
    + done.
Qed.

Lemma feedback_request_fields_witness :
  messages savedChat !! 1 = Some hiThere ∧ role hiThere = assistant ∧
  user savedChat = Some kamala ∧ currentChatId savedChat = Some "abc123" ∧
  "abc123" ≠ "" ∧
  ∃ request,
    network (run acceptingBackend (ChatPanel.handleFeedback savedChat 1 liked) savedChat).2
      = [SubmitFeedback request] ∧
    message_index request = 0%Z ∧ user_message request = "Hello".
Proof.
  assert (Hid : "abc123" ≠ "") by discriminate.
  repeat (split; [first [reflexivity | assumption]|]).
  destruct (feedback_request_fields acceptingBackend savedChat 1 liked kamala "abc123" hiThere
              eq_refl eq_refl eq_refl eq_refl Hid)
    as (request & Hsent & Hindex & Huser & _).
  exists request. split; [exact Hsent|]. split; [exact Hindex | exact Huser].
Defined.

(** C4. When the backend rejects the feedback request, [handleFeedback]
    has set the tag (the optimistic UPDATE_MESSAGE_FEEDBACK), sent the
    request, and then dispatches UPDATE_MESSAGE_FEEDBACK with null on the
    same index and SET_ERROR: the message at that index ends with feedback
    null, its other fields and the other messages as they were. *)
Theorem failed_feedback_is_reverted
    (b : Backend) (st : AppState) (i : nat) (tag : Feedback)
    (u : User) (chatId : string) (m : ChatMessage) :
  messages st !! i = Some m → role m = assistant →
  user st = Some u → currentChatId st = Some chatId → chatId ≠ "" →
  let request :=
    {| fb_username := username u;
       fb_chat_id := chatId;
       message_index := Z.of_nat i / 2;
       user_message := from_option content "" (at_index (messages st) (Z.of_nat i - 1));
       assistant_message := content m;
       feedback_type := tag |} in
  chat_feedback b request = Rejected →
  let optimistic := appReducer st (UPDATE_MESSAGE_FEEDBACK (Z.of_nat i) (Some tag)) in
  let final := run b (ChatPanel.handleFeedback st (Z.of_nat i) tag) st in
  final.2 = [Dispatch (UPDATE_MESSAGE_FEEDBACK (Z.of_nat i) (Some tag));
             SubmitFeedback request;
             Dispatch (UPDATE_MESSAGE_FEEDBACK (Z.of_nat i) None);
             Dispatch (SET_ERROR (Some "Failed to submit feedback"))] ∧
  feedback <$> messages optimistic !! i = Some (Some (Some tag)) ∧
  messages final.1 !! i = Some (withFeedback m None) ∧
  feedback <$> messages final.1 !! i = Some (Some None) ∧
  (∀ j, j ≠ i → messages final.1 !! j = messages st !! j) ∧
  error final.1 = Some "Failed to submit feedback".
Proof.
  intros Hm Hrole Hu Hchat Hid request Hreject optimistic final.
  subst optimistic final.
  rewrite (handleFeedback_proceeds st i tag u chatId m) by done.
  fold request. rewrite run_trace. cbn. rewrite Hreject. cbn.
  rewrite !dispatchAll_cons, dispatchAll_nil. cbn.
  rewrite !mapAt_lookup_eq, Hm by done. cbn.
  repeat split.
  intros j Hj. rewrite !mapAt_lookup_ne by lia. done.
Qed.

Lemma failed_feedback_is_reverted_witness :
  messages savedChat !! 1 = Some hiThere ∧ role hiThere = assistant ∧
  user savedChat = Some kamala ∧ currentChatId savedChat = Some "abc123" ∧
  "abc123" ≠ "" ∧
  chat_feedback failingBackend
    {| fb_username := "kamala"; fb_chat_id := "abc123"; message_index := 0;
       user_message := "Hello"; assistant_message := "Hi there";
       feedback_type := disliked |} = Rejected ∧
  messages (run failingBackend (ChatPanel.handleFeedback savedChat 1 disliked) savedChat).1 !! 1
    = Some (withFeedback hiThere None).
Proof.
  assert (Hid : "abc123" ≠ "") by discriminate.
  repeat (split; [first [reflexivity | assumption]|]).
  exact (proj1 (proj2 (proj2
    (failed_feedback_is_reverted failingBackend savedChat 1 disliked kamala "abc123" hiThere
       eq_refl eq_refl eq_refl eq_refl Hid eq_refl)))).
Defined.

(** C5, evaluated where it fails. [afterFailedSend] is the state a rejected
    first send leaves: the chat id is still the sentinel and the apology is
    an assistant message with content, so its feedback buttons are shown.
    [handleFeedback] on it does not return early: it tags the message and
    sends a request whose chat_id is the sentinel. *)
Lemma feedback_on_sentinel_chat_is_submitted :
  (run failingBackend (ChatPanel.handleSendMessage freshChat "Hello") freshChat).1
    = afterFailedSend ∧
  currentChatId afterFailedSend = Some sentinel ∧
  run acceptingBackend (ChatPanel.handleFeedback afterFailedSend 1 liked) afterFailedSend
  = (appReducer afterFailedSend (UPDATE_MESSAGE_FEEDBACK 1 (Some liked)),
     [Dispatch (UPDATE_MESSAGE_FEEDBACK 1 (Some liked));
      SubmitFeedback
        {| fb_username := "kamala"; fb_chat_id := "new_chat"; message_index := 0;
           user_message := "Hello"; assistant_message := ChatPanel.apology;
           feedback_type := liked |}]) ∧
  feedback <$>
    messages (run acceptingBackend (ChatPanel.handleFeedback afterFailedSend 1 liked)
                afterFailedSend).1 !! 1
  = Some (Some (Some liked)).
Proof. vm_compute. repeat split. Qed.

(** ** Logging out *)

(** A handler that is started and then resumed at once does what its run
    does. *)
Lemma run_start {T} (b : Backend) (p : handler T) (s : AppState) :
  (run b (start b p s).2 (start b p s).1).1 = (run b p s).1.
Proof.
  revert s. induction p as [x|c k IH]; intros s; [done|].
  cbn [start]. destruct (awaited c); [done|]. by rewrite IH.
Qed.

Lemma logout_run (b : Backend) (s : AppState) :
  run b Layout.handleLogout s = (initialState, [AuthLogout; Dispatch LOGOUT]).
Proof. unfold Layout.handleLogout. simpl. by destruct (auth_logout b). Qed.

(** Updates of a message do nothing to a store without messages. *)
Lemma quiet_without_messages {T} (b : Backend) (p : handler T) (s : AppState) :
  messages s = [] → only quiet p → dispatchAll s (dispatched (trace b p)) = s.
Proof.
  intros Hempty Hp. destruct (quiet_run b p s Hp) as (Hframe & Hlen & _).
  set (final := dispatchAll s (dispatched (trace b p))) in *.
  destruct Hframe as (Huser & Hchat & Hhistory & Hloading & Herror & Hrefresh).
  rewrite Hempty in Hlen. destruct s, final. simpl in *. subst.
  f_equal. by apply nil_length_inv.
Qed.

(** C7, as amended. The logout operation resets the whole state to the
    initial one, whatever the state was and whether its own awaited call
    resolves or rejects: user null, chat id null, no messages, no history,
    loading false, error null, refresh flag false. The reset is not final
    with respect to a request in flight: nothing cancels it, and when a
    send of the panel that was pending at logout settles afterwards, its
    continuation dispatches on the reset store. User, messages, history
    and the loading flag stay as the reset left them; a resolved send that
    adopts the returned chat id leaves that id and the refresh flag set, a
    rejected one leaves the error "Failed to send message"; only a resolved
    send that adopts no id leaves the initial state. *)
Theorem logout_resets_until_pending_send_settles (b : Backend) (s : AppState) :
  (let s' := appReducer s LOGOUT in
   s' = initialState ∧
   user s' = None ∧ currentChatId s' = None ∧ messages s' = [] ∧
   chatHistory s' = [] ∧ isLoading s' = false ∧ error s' = None ∧
   needsHistoryRefresh s' = false) ∧
  run b Layout.handleLogout s = (initialState, [AuthLogout; Dispatch LOGOUT]) ∧
  ∀ (st : AppState) (inputValue : string) (u : User),
    user st = Some u → trim inputValue ≠ "" →
    let final :=
      overtaken b (ChatPanel.handleSendMessage st inputValue) Layout.handleLogout s in
    user final = None ∧ messages final = [] ∧ chatHistory final = [] ∧
    isLoading final = false ∧
    match chat_send b
            {| req_username := username u;
               req_chat_id := chatIdOrAbsent (currentChatId st);
               user_input := trim inputValue |} with
    | Resolved resp =>
        if truthy (chat_id resp) && bool_decide (currentChatId st = Some sentinel)
        then currentChatId final = Some (chat_id resp) ∧
             needsHistoryRefresh final = true ∧ error final = None ∧
             final ≠ initialState
        else final = initialState
    | Rejected =>
        error final = Some "Failed to send message" ∧
        currentChatId final = None ∧ needsHistoryRefresh final = false ∧
        final ≠ initialState
    end.
Proof.
  split; [simpl; repeat split|]. split; [apply logout_run|].
  intros st inputValue u Hu Htrim%isEmpty_false final. subst final.
  unfold overtaken. cbn zeta. rewrite logout_run. cbn [fst].
  unfold ChatPanel.handleSendMessage. rewrite Hu, Htrim. cbn.
  rewrite run_trace. cbn.
  destruct (chat_send b _) as [resp|]; cbn.
  - destruct (truthy (chat_id resp) && bool_decide (currentChatId st = Some sentinel));
      cbn; rewrite ?dispatchAll_cons; cbn;
      rewrite quiet_without_messages by (done || apply ChatPanel_streaming_quiet);
      [|done].
    repeat split. discriminate.
  - rewrite !dispatchAll_cons, dispatchAll_nil. cbn.
    rewrite mapAt_out_of_bounds by (unfold inBounds; simpl; lia).
    repeat split. discriminate.
Qed.

Lemma logout_resets_until_pending_send_settles_witness :
  user freshChat = Some kamala ∧ trim "Hello" ≠ "" ∧
  messages
    (overtaken acceptingBackend (ChatPanel.handleSendMessage freshChat "Hello")
       Layout.handleLogout freshChat) = [] ∧
  currentChatId
    (overtaken acceptingBackend (ChatPanel.handleSendMessage freshChat "Hello")
       Layout.handleLogout freshChat) = Some "abc123".
Proof.
  assert (Htrim : trim "Hello" ≠ "") by (vm_compute; discriminate).
  split; [reflexivity|]. split; [exact Htrim|].
  pose proof (proj2 (proj2
    (logout_resets_until_pending_send_settles acceptingBackend freshChat))
    freshChat "Hello" kamala eq_refl Htrim) as (_ & Hmessages & _ & _ & Hsettled).
  split; [exact Hmessages|]. exact (proj1 Hsettled).
Defined.

(** A send of the panel is pending when the user logs out of a fresh chat.
    The logout resets the store; then the send settles. If the backend
    resolves it, the store of the logged-out session holds the chat id the
    backend returned and the refresh flag; if the backend rejects it, the
    store holds the error of the send. Neither is the initial state. *)
Lemma pending_send_outlives_logout :
  (run acceptingBackend Layout.handleLogout
     (start acceptingBackend (ChatPanel.handleSendMessage freshChat "Hello") freshChat).1).1
  = initialState ∧
  (let final :=
     overtaken acceptingBackend (ChatPanel.handleSendMessage freshChat "Hello")
       Layout.handleLogout freshChat in
   currentChatId final = Some "abc123" ∧ needsHistoryRefresh final = true ∧
   final ≠ initialState) ∧
  (let final :=
     overtaken failingBackend (ChatPanel.handleSendMessage freshChat "Hello")
       Layout.handleLogout freshChat in
   error final = Some "Failed to send message" ∧ final ≠ initialState).
Proof. vm_compute. repeat split; discriminate. Qed.

(** ** More on the reducer *)

(** X1. UPDATE_MESSAGE_FEEDBACK with an index that is negative or at least
    the number of messages leaves the whole state as it was: no position of
    the map matches. *)
Theorem update_message_feedback_out_of_bounds
    (s : AppState) (index : Z) (fb : option Feedback) :
  (index < 0 ∨ Z.of_nat (length (messages s)) ≤ index)%Z →
  appReducer s (UPDATE_MESSAGE_FEEDBACK index fb) = s.
Proof.
  intros Hout. simpl. rewrite mapAt_out_of_bounds; [by destruct s|].
  unfold inBounds. lia.
Qed.

Lemma update_message_feedback_out_of_bounds_witness :
  (-1 < 0 ∨ Z.of_nat (length (messages savedChat)) ≤ -1)%Z ∧
  appReducer savedChat (UPDATE_MESSAGE_FEEDBACK (-1) (Some liked)) = savedChat.
Proof.
  assert (Hout : (-1 < 0 ∨ Z.of_nat (length (messages savedChat)) ≤ -1)%Z) by (left; lia).
  split; [exact Hout|].
  exact (update_message_feedback_out_of_bounds savedChat (-1) (Some liked) Hout).
Defined.

(** X2. Only SET_MESSAGES and LOGOUT can shorten the conversation: after
    any actions other than these two, the number of messages is the number
    before plus the number of ADD_MESSAGE actions among them. *)
Theorem message_count_grows_by_adds (s : AppState) (actions : list AppAction) :
  Forall (λ a, replaces_messages a = false) actions →
  length (messages (dispatchAll s actions))
  = length (messages s) + length (List.filter adds_message actions).
Proof.
  intros Hall. revert s. induction Hall as [|a actions Ha _ IH]; intros s.
  - rewrite dispatchAll_nil. simpl. lia.
  - rewrite dispatchAll_cons, IH.
    destruct a; try discriminate Ha; simpl; rewrite ?mapAt_length, ?length_app; simpl; lia.
Qed.

Lemma message_count_grows_by_adds_witness :
  Forall (λ a, replaces_messages a = false)
    [ADD_MESSAGE hello; UPDATE_MESSAGE 0 hiThere; SET_ERROR None; ADD_MESSAGE hiThere] ∧
  length (messages (dispatchAll savedChat
    [ADD_MESSAGE hello; UPDATE_MESSAGE 0 hiThere; SET_ERROR None; ADD_MESSAGE hiThere]))
  = 4.
Proof.
  assert (Hall : Forall (λ a, replaces_messages a = false)
    [ADD_MESSAGE hello; UPDATE_MESSAGE 0 hiThere; SET_ERROR None; ADD_MESSAGE hiThere])
    by (repeat constructor).
  split; [exact Hall|].
  exact (message_count_grows_by_adds savedChat _ Hall).
Defined.

(** X3. Feedback updates of different indexes commute, and of two updates
    of the same index the later one wins. *)
Theorem feedback_updates_compose
    (s : AppState) (i j : Z) (a b : option Feedback) :
  (i ≠ j →
   appReducer (appReducer s (UPDATE_MESSAGE_FEEDBACK i a)) (UPDATE_MESSAGE_FEEDBACK j b)
   = appReducer (appReducer s (UPDATE_MESSAGE_FEEDBACK j b)) (UPDATE_MESSAGE_FEEDBACK i a)) ∧
  appReducer (appReducer s (UPDATE_MESSAGE_FEEDBACK i a)) (UPDATE_MESSAGE_FEEDBACK i b)
  = appReducer s (UPDATE_MESSAGE_FEEDBACK i b).
Proof.
  split.
  - intros Hij. simpl. f_equal. apply list_eq. intros k.
    rewrite !mapAt_lookup. destruct (messages s !! k) as [m|]; simpl; [|done].
    repeat case_bool_decide; try done; congruence.
  - simpl. f_equal. apply list_eq. intros k.
    rewrite !mapAt_lookup. destruct (messages s !! k) as [m|]; simpl; [|done].
    by case_bool_decide.
Qed.

Lemma feedback_updates_compose_witness :
  (0 ≠ 1)%Z ∧
  appReducer (appReducer savedChat (UPDATE_MESSAGE_FEEDBACK 0 (Some liked)))
    (UPDATE_MESSAGE_FEEDBACK 1 (Some disliked))
  = appReducer (appReducer savedChat (UPDATE_MESSAGE_FEEDBACK 1 (Some disliked)))
      (UPDATE_MESSAGE_FEEDBACK 0 (Some liked)).
Proof.
  assert (Hne : (0 ≠ 1)%Z) by lia.
  split; [exact Hne|].
  exact (proj1 (feedback_updates_compose savedChat 0 1 (Some liked) (Some disliked)) Hne).
Defined.

(** ** More on sending a message *)

Lemma trimEnd_idempotent (s : string) : trimEnd (trimEnd s) = trimEnd s.
Proof.
  induction s as [|c s IH]; simpl; [done|].
  destruct (isWhiteSpace c && isEmpty (trimEnd s)) eqn:Hdrop; simpl; [done|].
  rewrite IH, Hdrop. done.
Qed.

Lemma trimStart_trimEnd (s : string) :
  trimStart s = s → trimStart (trimEnd s) = trimEnd s.
Proof.
  destruct s as [|c s]; simpl; [done|].
  destruct (isWhiteSpace c) eqn:Hc.
  - intros Hs. exfalso.
    pose proof (trimStart_head s) as Hhead. rewrite Hs in Hhead. congruence.
  - intros _. simpl. by rewrite Hc.
Qed.

Lemma trimStart_idempotent (s : string) : trimStart (trimStart s) = trimStart s.
Proof.
  induction s as [|c s IH]; simpl; [done|].
  destruct (isWhiteSpace c) eqn:Hc; [done|]. simpl. by rewrite Hc.
Qed.

(** Trimmed text has no white space left to trim. *)
Lemma trim_idempotent (s : string) : trim (trim s) = trim s.
Proof.
  unfold trim. rewrite trimStart_trimEnd by apply trimStart_idempotent.
  apply trimEnd_idempotent.
Qed.

Lemma quiet_network (calls : list call) : Forall quiet calls → network calls = [].
Proof.
  induction 1 as [|c calls Hc _ IH]; [done|].
  unfold network in *. simpl. destruct c; simpl in *; done.
Qed.

Lemma network_app (calls calls' : list call) :
  network (calls ++ calls') = network calls ++ network calls'.
Proof. unfold network. apply List.filter_app. Qed.

(** X4. A send that passes the guard makes exactly one request to the
    backend, in both components and whatever the answer: for the stored
    user name, with the trimmed input (which trimming again leaves alone),
    and with a chat id that is never the sentinel. The id is absent exactly
    when the current chat id is null or the sentinel, and is the current
    chat id otherwise. *)
Theorem send_makes_one_request
    (b : Backend) (st : AppState) (inputValue : string) (u : User) :
  user st = Some u → trim inputValue ≠ "" →
  ∃ request,
    network (run b (ChatPanel.handleSendMessage st inputValue) st).2 = [SendMessage request] ∧
    network (run b (Chat.handleSendMessage st inputValue false) st).2 = [SendMessage request] ∧
    req_username request = username u ∧
    user_input request = trim inputValue ∧
    trim (user_input request) = user_input request ∧
    req_chat_id request ≠ Some sentinel ∧
    (req_chat_id request = None ↔
       currentChatId st = None ∨ currentChatId st = Some sentinel) ∧
    (∀ c, req_chat_id request = Some c → currentChatId st = Some c).
Proof.
  intros Hu Htrim%isEmpty_false.
  exists {| req_username := username u;
            req_chat_id := chatIdOrAbsent (currentChatId st);
            user_input := trim inputValue |}.
  rewrite !run_trace. unfold ChatPanel.handleSendMessage, Chat.handleSendMessage.
  rewrite Hu, Htrim. cbn.
  split; [|split].
  - destruct (chat_send b _) as [resp|]; cbn; [|done].
    destruct (truthy (chat_id resp) && bool_decide (currentChatId st = Some sentinel)); cbn;
      unfold network; cbn; fold (network (trace b (ChatPanel.simulateStreamingResponse
        (response resp) (Z.of_nat (length (messages st)) + 1))));
      by rewrite quiet_network by apply only_trace, ChatPanel_streaming_quiet.
  - destruct (chat_send b _) as [resp|]; cbn; [|done].
    destruct (bool_decide (currentChatId st = Some sentinel)
              || bool_decide (currentChatId st = None)); cbn;
      unfold network; cbn;
      fold (network (trace b (Chat.simulateStreamingResponse
        (response resp) (Z.of_nat (length (messages st)) + 1) ≫= λ _, Done tt)));
      by rewrite quiet_network by apply only_trace, Chat_streaming_then_done_quiet.
  - split; [done|]. split; [done|]. split; [apply trim_idempotent|].
    unfold chatIdOrAbsent. destruct (currentChatId st) as [c|];
      [|split; [done|]; split; [by split; [left|]|done]].
    destruct (bool_decide_reflect (c = sentinel)) as [->|Hne].
    + split; [done|]. split; [by split; [right|]|]. done.
    + split; [congruence|]. split; [|by intros ? [= <-]].
      split; [done|]. intros [|]; congruence.
Qed.

Lemma send_makes_one_request_witness :
  user freshChat = Some kamala ∧ trim "  Hello " ≠ "" ∧
  ∃ request,
    network (run acceptingBackend (ChatPanel.handleSendMessage freshChat "  Hello ") freshChat).2
      = [SendMessage request] ∧
    user_input request = "Hello" ∧ req_chat_id request = None.
Proof.
  assert (Htrim : trim "  Hello " ≠ "") by (vm_compute; discriminate).
  split; [reflexivity|]. split; [exact Htrim|].
  destruct (send_makes_one_request acceptingBackend freshChat "  Hello " kamala eq_refl Htrim)
    as (request & Hpanel & _ & _ & Hinput & _ & _ & Habsent & _).
  exists request. split; [exact Hpanel|]. split; [exact Hinput|].
  apply Habsent. right. reflexivity.
Defined.

(** X5. When the backend rejects a send of the full-page chat, the list the
    handler puts back is the pre-send list without its last message: a
    prefix of what was there before the send, one message shorter when
    there was one, with the error set and every other field as SET_ERROR
    leaves it. *)
Theorem Chat_rejected_send_drops_last_message
    (b : Backend) (st : AppState) (inputValue : string) (u : User) :
  user st = Some u → trim inputValue ≠ "" →
  chat_send b
    {| req_username := username u;
       req_chat_id := chatIdOrAbsent (currentChatId st);
       user_input := trim inputValue |} = Rejected →
  let final := (run b (Chat.handleSendMessage st inputValue false) st).1 in
  messages final = take (length (messages st) - 1) (messages st) ∧
  length (messages final) = length (messages st) - 1 ∧
  (∀ i m, messages final !! i = Some m → messages st !! i = Some m) ∧
  sameFrame (appReducer st (SET_ERROR (Some "Failed to send message"))) final.
Proof.
  intros Hu Htrim%isEmpty_false Hresp final. subst final.
  rewrite run_trace. unfold Chat.handleSendMessage. rewrite Hu, Htrim.
  cbn. rewrite Hresp. cbn. rewrite !dispatchAll_cons, dispatchAll_nil. cbn.
  unfold slice_0_m1. split; [done|]. split; [rewrite length_take; lia|].
  split; [|by unfold sameFrame].
  intros i m Hi. apply lookup_take_Some in Hi. by destruct Hi.
Qed.

Lemma Chat_rejected_send_drops_last_message_witness :
  user savedChat = Some kamala ∧ trim "Hi" ≠ "" ∧
  chat_send failingBackend
    {| req_username := "kamala"; req_chat_id := Some "abc123"; user_input := "Hi" |}
    = Rejected ∧
  messages (run failingBackend (Chat.handleSendMessage savedChat "Hi" false) savedChat).1
  = take 1 (messages savedChat).
Proof.
  assert (Htrim : trim "Hi" ≠ "") by (vm_compute; discriminate).
  repeat (split; [first [reflexivity | assumption]|]).
  exact (proj1 (Chat_rejected_send_drops_last_message failingBackend savedChat "Hi" kamala
                  eq_refl Htrim eq_refl)).
Defined.

(** X6. On a null chat id the two components differ. The panel adopts the
    id the backend returns only when the current id is the sentinel: from
    null it dispatches no SET_CURRENT_CHAT, and the id stays null and the
    refresh flag as it was. The full-page chat adopts the returned id and
    asks for a history refresh. *)
Theorem send_without_chat_id
    (b : Backend) (st : AppState) (inputValue : string) (u : User) (resp : ChatResponse) :
  user st = Some u → trim inputValue ≠ "" → currentChatId st = None →
  chat_send b
    {| req_username := username u; req_chat_id := None; user_input := trim inputValue |}
    = Resolved resp →
  let panel := run b (ChatPanel.handleSendMessage st inputValue) st in
  let page := run b (Chat.handleSendMessage st inputValue false) st in
  (currentChatId panel.1 = None ∧
   needsHistoryRefresh panel.1 = needsHistoryRefresh st ∧
   List.filter sets_current_chat (dispatched panel.2) = []) ∧
  (currentChatId page.1 = Some (chat_id resp) ∧
   needsHistoryRefresh page.1 = true).
Proof.
  intros Hu Htrim%isEmpty_false Hchat Hresp panel page. subst panel page.
  rewrite !run_trace. unfold ChatPanel.handleSendMessage, Chat.handleSendMessage.
  rewrite Hu, Htrim, Hchat. cbn. rewrite Hresp.
  rewrite ?andb_false_r, ?orb_true_r. cbn. rewrite !dispatchAll_cons. cbn.
  quiet_tail b (ChatPanel_streaming_quiet (response resp) (Z.of_nat (length (messages st)) + 1)).
  quiet_tail b (Chat_streaming_then_done_quiet (response resp) (Z.of_nat (length (messages st)) + 1)).
  done.
Qed.

Lemma send_without_chat_id_witness :
  user (appReducer initialState (LOGIN kamala)) = Some kamala ∧ trim "Hello" ≠ "" ∧
  currentChatId (appReducer initialState (LOGIN kamala)) = None ∧
  chat_send acceptingBackend
    {| req_username := "kamala"; req_chat_id := None; user_input := trim "Hello" |}
    = Resolved {| response := "Hi there"; chat_id := "abc123" |} ∧
  currentChatId
    (run acceptingBackend
       (ChatPanel.handleSendMessage (appReducer initialState (LOGIN kamala)) "Hello")
       (appReducer initialState (LOGIN kamala))).1 = None.
Proof.
  assert (Htrim : trim "Hello" ≠ "") by (vm_compute; discriminate).
  repeat (split; [first [reflexivity | assumption]|]).
  exact (proj1 (proj1
    (send_without_chat_id acceptingBackend (appReducer initialState (LOGIN kamala)) "Hello"
       kamala {| response := "Hi there"; chat_id := "abc123" |}
       eq_refl Htrim eq_refl eq_refl))).
Defined.

(** ** Alternation of the conversation *)

(** What a send of the panel leaves in the list, whatever the backend
    answers: nothing new when the guard returns, else the sent text and one
    assistant message. *)
Lemma ChatPanel_send_appends_pair (b : Backend) (st : AppState) (inputValue : string) :
  let final := (run b (ChatPanel.handleSendMessage st inputValue) st).1 in
  messages final = messages st ∨
  ∃ answer,
    messages final
    = messages st ++ [mkMessage user_role (trim inputValue); mkMessage assistant answer].
Proof.
  intros final. subst final.
  destruct (isEmpty (trim inputValue)) eqn:Htrim.
  { left. unfold ChatPanel.handleSendMessage. by rewrite Htrim. }
  destruct (user st) as [u|] eqn:Hu.
  2: { left. unfold ChatPanel.handleSendMessage. by rewrite Htrim, Hu. }
  right.
  destruct (chat_send b
              {| req_username := username u;
                 req_chat_id := chatIdOrAbsent (currentChatId st);
                 user_input := trim inputValue |}) as [resp|] eqn:Hresp.
  - exists (response resp). apply isEmpty_false in Htrim.
    exact (proj1 (resolved_send_messages b st inputValue u resp Hu Htrim Hresp)).
  - exists ChatPanel.apology. rewrite run_trace.
    unfold ChatPanel.handleSendMessage. rewrite Hu, Htrim. cbn. rewrite Hresp. cbn.
    rewrite !dispatchAll_cons, !dispatchAll_nil. cbn.
    set (sent := mkMessage user_role (trim inputValue)).
    replace (Z.of_nat (length (messages st)) + 1)%Z
      with (Z.of_nat (length (messages st ++ [sent])))
      by (rewrite length_app; simpl; lia).
    rewrite mapAt_middle. by rewrite <- app_assoc.
Qed.

Lemma alternating_pair (msgs : list ChatMessage) (question answer : string) :
  alternating msgs → Nat.even (length msgs) = true →
  alternating (msgs ++ [mkMessage user_role question; mkMessage assistant answer]).
Proof.
  intros Halt Heven i m Hi. apply lookup_app_Some in Hi as [Hi|[Hge Hi]]; [by apply Halt|].
  replace i with (length msgs + (i - length msgs)) by lia.
  rewrite Nat.even_add, Heven.
  destruct (i - length msgs) as [|[|j]]; simpl in *; [by injection Hi as <-..|done].
Qed.

(** In alternating messages an assistant message follows the user message
    it answers. *)
Lemma alternating_question (msgs : list ChatMessage) (i : nat) (m : ChatMessage) :
  alternating msgs → msgs !! i = Some m → role m = assistant →
  ∃ question,
    at_index msgs (Z.of_nat i - 1) = Some question ∧ role question = user_role.
Proof.
  intros Halt Hi Hrole. pose proof (Halt i m Hi) as Hm.
  destruct i as [|j]; [simpl in Hm; congruence|].
  rewrite Nat.even_succ, <- Nat.negb_even in Hm.
  destruct (Nat.even j) eqn:Hj; simpl in Hm; [|congruence].
  destruct (msgs !! j) as [question|] eqn:Hq.
  - exists question. replace (Z.of_nat (S j) - 1)%Z with (Z.of_nat j) by lia.
    rewrite at_index_nat. split; [done|]. pose proof (Halt j question Hq) as Hquestion.
    by rewrite Hj in Hquestion.
  - apply lookup_ge_None in Hq. apply lookup_lt_Some in Hi. lia.
Qed.

(** X7. A send of the floating panel keeps the conversation in pairs: if
    the messages alternate user, assistant, ... and end on an assistant
    message, they still do after [handleSendMessage], whether the guard
    returns, the backend answers or the request is rejected. Every
    assistant message then has a user message right before it, which is the
    one [handleFeedback] quotes as user_message. *)
Theorem ChatPanel_send_keeps_alternation
    (b : Backend) (st : AppState) (inputValue : string) :
  alternating (messages st) → Nat.even (length (messages st)) = true →
  let final := (run b (ChatPanel.handleSendMessage st inputValue) st).1 in
  alternating (messages final) ∧
  Nat.even (length (messages final)) = true ∧
  ∀ (i : nat) m, messages final !! i = Some m → role m = assistant →
    ∃ question,
      at_index (messages final) (Z.of_nat i - 1) = Some question ∧
      role question = user_role.
Proof.
  intros Halt Heven final.
  assert (Hfinal : alternating (messages final) ∧ Nat.even (length (messages final)) = true).
  { destruct (ChatPanel_send_appends_pair b st inputValue) as [Hsame|[answer Hpair]];
      fold final in Hsame || fold final in Hpair.
    - by rewrite Hsame.
    - rewrite Hpair. split; [by apply alternating_pair|].
      rewrite length_app, Nat.even_add, Heven. done. }
  destruct Hfinal as [Halt' Heven']. split; [done|]. split; [done|].
  intros i m. by apply alternating_question.
Qed.

Lemma ChatPanel_send_keeps_alternation_witness :
  alternating (messages freshChat) ∧ Nat.even (length (messages freshChat)) = true ∧
  alternating
    (messages (run acceptingBackend (ChatPanel.handleSendMessage freshChat "Hello")
                 freshChat).1).
Proof.
  assert (Halt : alternating (messages freshChat)) by (intros i m Hi; discriminate Hi).
  split; [exact Halt|]. split; [reflexivity|].
  exact (proj1 (ChatPanel_send_keeps_alternation acceptingBackend freshChat "Hello"
                  Halt eq_refl)).
Defined.

(** ** More on the typing simulation *)

Lemma substring0_prefix (n : nat) (s : string) : ∃ rest, s = substring0 n s +:+ rest.
Proof.
  unfold substring0. revert n. induction s as [|c s IH]; intros n.
  - exists "". by destruct n.
  - destruct n as [|n]; simpl.
    + by exists (String c s).
    + destruct (IH n) as [rest Hrest]. exists rest.
      change (String c s = String c (String.substring 0 n s +:+ rest)). by rewrite <- Hrest.
Qed.

Lemma ChatPanel_streamingInterval_ticks
    (b : Backend) fuel fullResponse messageIndex currentIndex :
  String.length fullResponse ≤ currentIndex + 8 * fuel →
  trace b (ChatPanel.streamingInterval (S fuel) fullResponse messageIndex currentIndex)
  = ((λ i, Dispatch (showing messageIndex (substring0 (currentIndex + 8 * S i) fullResponse)))
       <$> seq 0 ((String.length fullResponse + 7 - currentIndex) / 8))
    ++ [SetIsStreaming false; Dispatch (showing messageIndex fullResponse); FocusInput].
Proof.
  revert currentIndex. induction fuel as [|fuel IH]; intros currentIndex Hfuel;
    rewrite ChatPanel_streamingInterval_S; case_bool_decide as Hlt; try lia.
  - rewrite Nat.div_small by lia. done.
  - rewrite trace_bind, IH by lia.
    replace (String.length fullResponse + 7 - currentIndex)
      with ((String.length fullResponse + 7 - (currentIndex + 8)) + 1 * 8) by lia.
    rewrite Nat.div_add by lia.
    set (ticks := (String.length fullResponse + 7 - (currentIndex + 8)) / 8).
    rewrite Nat.add_1_r, <- cons_seq, fmap_cons, <- fmap_S_seq, <- list_fmap_compose.
    cbn [trace updateMessage perform app]. unfold showing.
    rewrite Nat.mul_1_r. do 2 f_equal.
    apply list_fmap_ext. intros _ i _. unfold compose.
    by replace (currentIndex + 8 + 8 * S i) with (currentIndex + 8 * S (S i)) by lia.
  - rewrite Nat.div_small by lia. done.
Qed.

(** X8. The typing simulation of the panel shows the response 8 characters
    at a time, starting with the first 5: after setting the streaming flag
    it dispatches floor((length + 2) / 8) + 1 partial updates of the same
    message, the i-th showing the first 5 + 8 i characters, each a prefix of
    the response; then it clears the flag, writes the whole response and
    focuses the input. *)
Theorem ChatPanel_streaming_reveals (b : Backend) (fullResponse : string) (messageIndex : Z) :
  let ticks := (String.length fullResponse + 2) / 8 in
  trace b (ChatPanel.simulateStreamingResponse fullResponse messageIndex)
  = SetIsStreaming true
    :: ((λ i, Dispatch (showing messageIndex (substring0 (5 + 8 * i) fullResponse)))
          <$> seq 0 (S ticks))
    ++ [SetIsStreaming false; Dispatch (showing messageIndex fullResponse); FocusInput] ∧
  ∀ i, ∃ rest, fullResponse = substring0 (5 + 8 * i) fullResponse +:+ rest.
Proof.
  split; [|intros i; apply substring0_prefix].
  unfold ChatPanel.simulateStreamingResponse.
  rewrite !trace_bind, ChatPanel_streamingInterval_ticks by lia.
  replace (String.length fullResponse + 7 - 5) with (String.length fullResponse + 2) by lia.
  set (ticks := (String.length fullResponse + 2) / 8).
  rewrite <- cons_seq, fmap_cons, <- fmap_S_seq, <- list_fmap_compose.
  cbn [trace updateMessage perform app]. unfold showing.
  rewrite Nat.mul_0_r, Nat.add_0_r. done.
Qed.

Lemma Chat_streamingInterval_reveals (b : Backend) messageIndex words wordIndex currentResponse :
  let final := value b (Chat.streamingInterval messageIndex words wordIndex currentResponse) in
  ∃ partials,
    trace b (Chat.streamingInterval messageIndex words wordIndex currentResponse)
    = ((λ text, Dispatch (showing messageIndex text)) <$> partials) ++ [SetIsStreaming false] ∧
    length partials = length words ∧
    Forall (λ text, ∃ rest, final = text +:+ rest) partials ∧
    (words ≠ [] → last partials = Some final).
Proof.
  revert wordIndex currentResponse.
  induction words as [|word rest IH]; intros wordIndex currentResponse final.
  - exists []. repeat split; [constructor | done].
  - set (next := currentResponse +:+ (if bool_decide (0 < wordIndex) then " " else "") +:+ word).
    destruct (IH (S wordIndex) next) as (partials & Htrace & Hlen & Hprefix & Hlast).
    exists (next :: partials). subst final. simpl. fold next.
    split; [by rewrite Htrace|]. split; [by rewrite Hlen|]. split.
    + constructor; [|done].
      rewrite Chat_streamingInterval_value by lia. by eexists.
    + intros _. rewrite last_cons. destruct rest as [|word' rest'].
      * destruct partials; [done|discriminate Hlen].
      * by rewrite Hlast.
Qed.

(** X9. The typing simulation of the full-page chat shows the response word
    by word: one update of the same message per piece of the response split
    at spaces, each showing a prefix of the response and the last one the
    whole response, and then the streaming flag is cleared. *)
Theorem Chat_streaming_reveals (b : Backend) (fullResponse : string) (messageIndex : Z) :
  ∃ partials,
    trace b (Chat.simulateStreamingResponse fullResponse messageIndex)
    = ((λ text, Dispatch (showing messageIndex text)) <$> partials) ++ [SetIsStreaming false] ∧
    length partials = length (split " " fullResponse) ∧
    Forall (λ text, ∃ rest, fullResponse = text +:+ rest) partials ∧
    last partials = Some fullResponse.
Proof.
  pose proof (Chat_streaming_value b fullResponse messageIndex) as Hvalue.
  unfold Chat.simulateStreamingResponse in *.
  destruct (Chat_streamingInterval_reveals b messageIndex (split " " fullResponse) 0 "")
    as (partials & Htrace & Hlen & Hprefix & Hlast).
  rewrite Hvalue in Hprefix, Hlast.
  exists partials. repeat split; try done. apply Hlast, split_not_nil.
Qed.

(** ** More on feedback *)

(** X10. [handleFeedback] of the panel makes no call exactly when there is
    no message at the index, the message is not an assistant message, no
    user is set, or the chat id is null or the empty string. In particular
    any other chat id, the sentinel included, passes the guard. *)
Theorem feedback_returns_early_iff (st : AppState) (messageIndex : Z) (tag : Feedback) :
  ChatPanel.handleFeedback st messageIndex tag = Done tt
  ↔ (∃ m, at_index (messages st) messageIndex = Some m ∧ role m ≠ assistant)
    ∨ at_index (messages st) messageIndex = None
    ∨ user st = None
    ∨ currentChatId st = None ∨ currentChatId st = Some "".
Proof.
  unfold ChatPanel.handleFeedback.
  destruct (at_index (messages st) messageIndex) as [m|]; [|by split; [right; left|]].
  destruct (user st) as [u|]; [|by split; [right; right; left|]].
  destruct (currentChatId st) as [chatId|]; [|by split; [right; right; right; left|]].
  destruct (isEmpty chatId) eqn:Hid; simpl.
  { apply isEmpty_true in Hid as ->. by split; [do 4 right|]. }
  apply isEmpty_false in Hid.
  destruct (bool_decide_reflect (role m = assistant)) as [Hrole|Hrole]; simpl.
  - split; [done|]. intros [(m' & [= <-] & Hm')|[|[|[|[= ->]]]]]; done.
  - split; [|done]. intros _. left. by exists m.
Qed.

(** X11. When the backend accepts the feedback, [handleFeedback] of the
    panel makes two calls, the optimistic UPDATE_MESSAGE_FEEDBACK and the
    request, and nothing after them: the message keeps the tag, the other
    messages and the other fields are unchanged. *)
Theorem accepted_feedback_keeps_tag
    (b : Backend) (st : AppState) (i : nat) (tag : Feedback)
    (u : User) (chatId : string) (m : ChatMessage) (res : FeedbackResponse) :
  messages st !! i = Some m → role m = assistant →
  user st = Some u → currentChatId st = Some chatId → chatId ≠ "" →
  let request :=
    {| fb_username := username u;
       fb_chat_id := chatId;
       message_index := Z.of_nat i / 2;
       user_message := from_option content "" (at_index (messages st) (Z.of_nat i - 1));
       assistant_message := content m;
       feedback_type := tag |} in
  chat_feedback b request = Resolved res →
  let final := run b (ChatPanel.handleFeedback st (Z.of_nat i) tag) st in
  final.2 = [Dispatch (UPDATE_MESSAGE_FEEDBACK (Z.of_nat i) (Some tag));
             SubmitFeedback request] ∧
  messages final.1 !! i = Some (withFeedback m (Some tag)) ∧
  (∀ j, j ≠ i → messages final.1 !! j = messages st !! j) ∧
  sameFrame st final.1.
Proof.
  intros Hm Hrole Hu Hchat Hid request Haccept final. subst final.
  rewrite (handleFeedback_proceeds st i tag u chatId m) by done.
  fold request. rewrite run_trace. cbn. rewrite Haccept. cbn.
  rewrite !dispatchAll_cons, dispatchAll_nil. cbn.
  rewrite mapAt_lookup_eq, Hm by done.
  repeat split. intros j Hj. rewrite mapAt_lookup_ne by lia. done.
Qed.

Lemma accepted_feedback_keeps_tag_witness :
  messages savedChat !! 1 = Some hiThere ∧ role hiThere = assistant ∧
  user savedChat = Some kamala ∧ currentChatId savedChat = Some "abc123" ∧
  "abc123" ≠ "" ∧
  chat_feedback acceptingBackend
    {| fb_username := "kamala"; fb_chat_id := "abc123"; message_index := 0;
       user_message := "Hello"; assistant_message := "Hi there";
       feedback_type := liked |} = Resolved {| fb_message := "ok"; feedback_id := "f1" |} ∧
  messages (run acceptingBackend (ChatPanel.handleFeedback savedChat 1 liked) savedChat).1 !! 1
    = Some (withFeedback hiThere (Some liked)).
Proof.
  assert (Hid : "abc123" ≠ "") by discriminate.
  repeat (split; [first [reflexivity | assumption]|]).
  exact (proj1 (proj2
    (accepted_feedback_keeps_tag acceptingBackend savedChat 1 liked kamala "abc123" hiThere
       {| fb_message := "ok"; feedback_id := "f1" |}
       eq_refl eq_refl eq_refl eq_refl Hid eq_refl))).
Defined.

(** X12. [handleFeedback] of the full-page chat toggles, with one
    UPDATE_MESSAGE_FEEDBACK and no request: a click on the tag the message
    already has clears it, any other click sets the tag. After a second
    click on the same tag the message has that tag if it had it at first,
    and none otherwise. *)
Theorem Chat_feedback_toggles
    (b : Backend) (st : AppState) (i : nat) (fb : Feedback) (m : ChatMessage) :
  messages st !! i = Some m →
  let toggled := if bool_decide (feedback m = Some (Some fb)) then None else Some fb in
  ∃ click,
    Chat.handleFeedback st (Z.of_nat i) fb = Some click ∧
    (run b click st).2 = [Dispatch (UPDATE_MESSAGE_FEEDBACK (Z.of_nat i) toggled)] ∧
    messages (run b click st).1 !! i = Some (withFeedback m toggled) ∧
    ∃ again,
      Chat.handleFeedback (run b click st).1 (Z.of_nat i) fb = Some again ∧
      messages (run b again (run b click st).1).1 !! i
      = Some (withFeedback m (if bool_decide (feedback m = Some (Some fb))
                              then Some fb else None)).
Proof.
  intros Hm toggled.
  assert (Hfirst : messages (appReducer st (UPDATE_MESSAGE_FEEDBACK (Z.of_nat i) toggled)) !! i
                   = Some (withFeedback m toggled)).
  { simpl. by rewrite mapAt_lookup_eq, Hm. }
  unfold Chat.handleFeedback at 1. rewrite at_index_nat, Hm. fold toggled.
  eexists. split; [done|]. rewrite run_trace. cbn.
  rewrite dispatchAll_cons, dispatchAll_nil. split; [done|]. split; [exact Hfirst|].
  unfold Chat.handleFeedback. rewrite at_index_nat, Hfirst.
  eexists. split; [done|]. rewrite run_trace. cbn.
  rewrite dispatchAll_cons, dispatchAll_nil. simpl.
  rewrite mapAt_lookup_eq by done. simpl. rewrite mapAt_lookup_eq, Hm by done. simpl.
  subst toggled. f_equal.
  destruct (bool_decide_reflect (feedback m = Some (Some fb))) as [Heq|Hne].
  - by rewrite bool_decide_eq_false_2.
  - by rewrite bool_decide_eq_true_2.
Qed.

Lemma Chat_feedback_toggles_witness :
  messages savedChat !! 1 = Some hiThere ∧
  ∃ click,
    Chat.handleFeedback savedChat 1 liked = Some click ∧
    messages (run acceptingBackend click savedChat).1 !! 1
    = Some (withFeedback hiThere (Some liked)).
Proof.
  split; [reflexivity|].
  destruct (Chat_feedback_toggles acceptingBackend savedChat 1 liked hiThere eq_refl)
    as (click & Hclick & _ & Hstore & _).
  exists click. split; [exact Hclick | exact Hstore].
Defined.

(** X13. With no message at the index, [handleFeedback] of the full-page
    chat throws (it reads [feedback] off undefined), where that of the panel
    returns without a call. *)
Theorem Chat_feedback_throws_out_of_range (st : AppState) (messageIndex : Z) (fb : Feedback) :
  (messageIndex < 0 ∨ Z.of_nat (length (messages st)) ≤ messageIndex)%Z →
  Chat.handleFeedback st messageIndex fb = None ∧
  ChatPanel.handleFeedback st messageIndex fb = Done tt.
Proof.
  intros Hout.
  assert (Hnone : at_index (messages st) messageIndex = None).
  { unfold at_index. case_bool_decide; [|done]. rewrite lookup_ge_None_2; [done|lia]. }
  unfold Chat.handleFeedback, ChatPanel.handleFeedback. by rewrite Hnone.
Qed.

Lemma Chat_feedback_throws_out_of_range_witness :
  (2 < 0 ∨ Z.of_nat (length (messages savedChat)) ≤ 2)%Z ∧
  Chat.handleFeedback savedChat 2 liked = None.
Proof.
  assert (Hout : (2 < 0 ∨ Z.of_nat (length (messages savedChat)) ≤ 2)%Z)
    by (right; simpl; lia).
  split; [exact Hout|].
  exact (proj1 (Chat_feedback_throws_out_of_range savedChat 2 liked Hout)).
Defined.

(** ** The chat session *)

(** X14. [initializeChatSession] of the panel, for a logged-in user. When
    the history request resolves, the store holds that history, the
    sentinel chat id and no messages, whatever chat was open before. When it
    is rejected the error is set, and the history, the chat id, the messages
    and the user are as before. *)
Theorem ChatPanel_initialize_session (srv : Server) (st : AppState) (u : User) :
  user st = Some u →
  let final := (play srv (ChatPanel.initializeChatSession st) st).1 in
  match user_history srv (username u) with
  | Resolved history =>
      chatHistory final = history ∧ currentChatId final = Some sentinel ∧
      messages final = [] ∧
      user final = user st ∧ error final = error st ∧ isLoading final = isLoading st ∧
      needsHistoryRefresh final = needsHistoryRefresh st
  | Rejected =>
      error final = Some "Failed to initialize chat session" ∧
      chatHistory final = chatHistory st ∧ currentChatId final = currentChatId st ∧
      messages final = messages st ∧ user final = user st
  end.
Proof.
  intros Hu final. subst final. unfold ChatPanel.initializeChatSession. rewrite Hu.
  simpl. by destruct (user_history srv (username u)).
Qed.

Lemma ChatPanel_initialize_session_witness :
  user savedChat = Some kamala ∧
  messages (play answeringServer (ChatPanel.initializeChatSession savedChat) savedChat).1 = [] ∧
  messages (play rejectingServer (ChatPanel.initializeChatSession savedChat) savedChat).1
  = [hello; hiThere].
Proof.
  split; [reflexivity|]. split.
  - exact (proj1 (proj2 (proj2
      (ChatPanel_initialize_session answeringServer savedChat kamala eq_refl)))).
  - exact (proj1 (proj2 (proj2 (proj2
      (ChatPanel_initialize_session rejectingServer savedChat kamala eq_refl))))).
Defined.

(** X15. [initializeChatSession] of the full-page chat, for a logged-in
    user, sends the history request while the loading flag is on and ends
    with the flag off. An empty history opens the sentinel chat with no
    messages. Otherwise the first chat of the history becomes current and
    its messages are loaded; when that second request is rejected the chat
    id is already switched, the messages are the old ones and the error is
    set. When the history request itself is rejected the error is set and
    the history, the chat id and the messages are as before. *)
Theorem Chat_initialize_session (srv : Server) (st : AppState) (u : User) :
  user st = Some u →
  let outcome := play srv (Chat.initializeChatSession st) st in
  isLoading outcome.1 = false ∧
  head (requests outcome.2)
    = Some (GetUserHistory (username u), appReducer st (SET_LOADING true)) ∧
  match user_history srv (username u) with
  | Rejected =>
      error outcome.1 = Some "Failed to initialize chat session" ∧
      chatHistory outcome.1 = chatHistory st ∧
      currentChatId outcome.1 = currentChatId st ∧ messages outcome.1 = messages st
  | Resolved [] =>
      chatHistory outcome.1 = [] ∧ currentChatId outcome.1 = Some sentinel ∧
      messages outcome.1 = [] ∧ error outcome.1 = error st
  | Resolved (recentChat :: older) =>
      chatHistory outcome.1 = recentChat :: older ∧
      currentChatId outcome.1 = Some (history_id recentChat) ∧
      match chat_messages srv (username u) (history_id recentChat) with
      | Resolved msgs => messages outcome.1 = msgs ∧ error outcome.1 = error st
      | Rejected =>
          messages outcome.1 = messages st ∧
          error outcome.1 = Some "Failed to initialize chat session"
      end
  end.
Proof.
  intros Hu outcome. subst outcome. unfold Chat.initializeChatSession. rewrite Hu.
  simpl. destruct (user_history srv (username u)) as [[|recentChat older]|]; simpl; try done.
  by destruct (chat_messages srv (username u) (history_id recentChat)).
Qed.

Lemma Chat_initialize_session_witness :
  user freshChat = Some kamala ∧
  currentChatId (play answeringServer (Chat.initializeChatSession freshChat) freshChat).1
  = Some "abc123".
Proof.
  split; [reflexivity|].
  exact (proj1 (proj2 (proj2 (proj2
    (Chat_initialize_session answeringServer freshChat kamala eq_refl))))).
Defined.

(** X16. The guard of the mount effect of Chat.tsx is closed by the effect
    itself: once [initializeChatSession] got the history, the effect run on
    the store it left does nothing, because the history is not empty or the
    chat id is the sentinel. After a rejected history request the three
    fields the guard reads are as before, so the effect would run again. *)
Theorem Chat_mount_effect_settles (srv : Server) (st : AppState) (u : User) :
  user st = Some u →
  let final := (play srv (Chat.onMount st) st).1 in
  match user_history srv (username u) with
  | Resolved _ => Chat.onMount final = Finish tt
  | Rejected =>
      Chat.onMount final = Chat.onMount st ∧
      (Chat.onMount st ≠ Finish tt →
       error final = Some "Failed to initialize chat session" ∧ isLoading final = false)
  end.
Proof.
  intros Hu final. subst final.
  destruct (chatHistory st) as [|chat older] eqn:Hhistory.
  2: { assert (Hst : Chat.onMount st = Finish tt).
       { unfold Chat.onMount. by rewrite Hu, Hhistory. }
       rewrite Hst. simpl. by destruct (user_history srv (username u)). }
  destruct (from_option truthy false (currentChatId st)) eqn:Hcurrent.
  { assert (Hst : Chat.onMount st = Finish tt).
    { unfold Chat.onMount. by rewrite Hu, Hhistory, Hcurrent. }
    rewrite Hst. simpl. by destruct (user_history srv (username u)). }
  assert (Hst : Chat.onMount st = Chat.initializeChatSession st).
  { unfold Chat.onMount. by rewrite Hu, Hhistory, Hcurrent. }
  rewrite Hst. clear Hst. unfold Chat.initializeChatSession. rewrite Hu. simpl.
  destruct (user_history srv (username u)) as [[|recentChat older]|]; simpl.
  - unfold Chat.onMount. simpl. by rewrite Hu.
  - destruct (chat_messages srv (username u) (history_id recentChat)); simpl;
      unfold Chat.onMount; simpl; by rewrite Hu.
  - split; [|done]. unfold Chat.onMount. simpl.
    by rewrite Hu, Hhistory, Hcurrent.
Qed.

Lemma Chat_mount_effect_settles_witness :
  user (appReducer initialState (LOGIN kamala)) = Some kamala ∧
  Chat.onMount
    (play answeringServer (Chat.onMount (appReducer initialState (LOGIN kamala)))
       (appReducer initialState (LOGIN kamala))).1
  = Finish tt.
Proof.
  split; [reflexivity|].
  exact (Chat_mount_effect_settles answeringServer (appReducer initialState (LOGIN kamala))
           kamala eq_refl).
Defined.

(** X17. A click on a history item, in both components and for a logged-in
    user, switches the chat id before the messages are requested: the one
    request is sent from a store that already has the new id, the local
    loading flag is set first and cleared last, and when the request is
    rejected the store keeps the new chat id with the messages of the old
    chat and the error set. *)
Theorem history_item_click (srv : Server) (st : AppState) (u : User) (chatId : string) :
  user st = Some u →
  let panel := play srv (ChatPanel.handleHistoryItemClick st chatId) st in
  let page := play srv (Chat.handleHistoryItemClick st chatId) st in
  currentChatId panel.1 = Some chatId ∧ currentChatId page.1 = Some chatId ∧
  requests panel.2
    = [(GetChatMessages (username u) chatId, appReducer st (SET_CURRENT_CHAT (Some chatId)))] ∧
  requests page.2 = requests panel.2 ∧
  head panel.2.*1 = Some (SetIsLoadingHistory true) ∧
  last panel.2.*1 = Some (SetIsLoadingHistory false) ∧
  head page.2.*1 = Some (SetIsLoadingHistory true) ∧
  last page.2.*1 = Some (SetIsLoadingHistory false) ∧
  match chat_messages srv (username u) chatId with
  | Resolved msgs =>
      messages panel.1 = msgs ∧ messages page.1 = msgs ∧
      error panel.1 = error st ∧ error page.1 = error st
  | Rejected =>
      messages panel.1 = messages st ∧ messages page.1 = messages st ∧
      error panel.1 = Some "Failed to load chat messages" ∧
      error page.1 = Some "Failed to load chat messages"
  end.
Proof.
  intros Hu panel page. subst panel page.
  unfold ChatPanel.handleHistoryItemClick, Chat.handleHistoryItemClick. rewrite Hu.
  simpl. by destruct (chat_messages srv (username u) chatId).
Qed.

Lemma history_item_click_witness :
  user savedChat = Some kamala ∧
  currentChatId (play rejectingServer (ChatPanel.handleHistoryItemClick savedChat "zzz")
                   savedChat).1 = Some "zzz" ∧
  messages (play rejectingServer (ChatPanel.handleHistoryItemClick savedChat "zzz")
              savedChat).1 = [hello; hiThere].
Proof.
  split; [reflexivity|].
  pose proof (history_item_click rejectingServer savedChat kamala "zzz" eq_refl)
    as (Hid & _ & _ & _ & _ & _ & _ & _ & Hmsgs).
  split; [exact Hid|]. exact (proj1 Hmsgs).
Defined.

(** X18. The refresh effect of the full-page chat, when the flag is set and
    a user is logged in, sends the history request, resets the flag without
    waiting for the answer, and then stores the history or the error. Run
    again on the store it leaves, it does nothing. *)
Theorem Chat_history_refresh (srv : Server) (st : AppState) (u : User) :
  needsHistoryRefresh st = true → user st = Some u →
  let outcome := play srv (Chat.onNeedsHistoryRefresh st) st in
  needsHistoryRefresh outcome.1 = false ∧
  match user_history srv (username u) with
  | Resolved history =>
      outcome.2.*1 = [GetUserHistory (username u); Store (SET_NEEDS_HISTORY_REFRESH false);
                      Store (SET_CHAT_HISTORY history)] ∧
      chatHistory outcome.1 = history ∧ error outcome.1 = error st
  | Rejected =>
      outcome.2.*1 = [GetUserHistory (username u); Store (SET_NEEDS_HISTORY_REFRESH false);
                      Store (SET_ERROR (Some "Failed to load chat history"))] ∧
      chatHistory outcome.1 = chatHistory st ∧
      error outcome.1 = Some "Failed to load chat history"
  end ∧
  Chat.onNeedsHistoryRefresh outcome.1 = Finish tt.
Proof.
  intros Hneeds Hu outcome. subst outcome.
  assert (Hrun : Chat.onNeedsHistoryRefresh st =
    (r ← historyApi.getUserHistory (username u) ;
     useApp.setNeedsHistoryRefresh false ;;
     match r with
     | Resolved history => useApp.setChatHistory history
     | Rejected => useApp.setError (Some "Failed to load chat history")
     end)).
  { unfold Chat.onNeedsHistoryRefresh. by rewrite Hneeds, Hu. }
  rewrite Hrun. simpl.
  destruct (user_history srv (username u)); simpl; repeat split.
Qed.

Lemma Chat_history_refresh_witness :
  needsHistoryRefresh
    (appReducer savedChat (SET_NEEDS_HISTORY_REFRESH true)) = true ∧
  user (appReducer savedChat (SET_NEEDS_HISTORY_REFRESH true)) = Some kamala ∧
  chatHistory
    (play answeringServer
       (Chat.onNeedsHistoryRefresh (appReducer savedChat (SET_NEEDS_HISTORY_REFRESH true)))
       (appReducer savedChat (SET_NEEDS_HISTORY_REFRESH true))).1
  = [firstChat].
Proof.
  split; [reflexivity|]. split; [reflexivity|].
  pose proof (Chat_history_refresh answeringServer
                (appReducer savedChat (SET_NEEDS_HISTORY_REFRESH true)) kamala
                eq_refl eq_refl) as (_ & Hfetched & _).
  exact (proj1 (proj2 Hfetched)).
Defined.

(** ** The login form *)

(** X19. The outcomes of the login form. With an empty name or password no
    request is sent and the error asks for both. Otherwise one login request
    is sent and the loading flag ends off; a successful response with a user
    stores that user marked as logged in; any other response, or a failure,
    stores no user and sets the error: the message of the response, the
    fixed text for a 401 or an empty message, the detail of another failure,
    or the generic text. *)
Theorem login_outcomes (srv : Server) (st : AppState) (name password : string) :
  let outcome := play srv (Login.handleSubmit name password) st in
  if isEmpty name || isEmpty password then
    outcome.2.*1 = [Store (SET_ERROR (Some "Please enter both username and password"))] ∧
    user outcome.1 = user st ∧
    error outcome.1 = Some "Please enter both username and password"
  else
    requests outcome.2
      = [(PostLogin name password,
          appReducer (appReducer st (SET_LOADING true)) (SET_ERROR None))] ∧
    isLoading outcome.1 = false ∧
    match auth_login srv name password with
    | inl response =>
        match success response, login_user response with
        | true, Some u =>
            user outcome.1 = Some (Login.loggedIn u) ∧ error outcome.1 = None ∧
            (isLoggedIn <$> user outcome.1) = Some true
        | _, _ =>
            user outcome.1 = user st ∧
            error outcome.1
            = Some (if isEmpty (login_message response) then "Invalid username or password"
                    else login_message response)
        end
    | inr failure =>
        user outcome.1 = user st ∧
        error outcome.1
        = Some (if bool_decide (status failure = Some 401%Z)
                then "Invalid username or password"
                else match detail failure with
                     | Some d => if isEmpty d
                                 then "An error occurred during login. Please try again."
                                 else d
                     | None => "An error occurred during login. Please try again."
                     end)
    end.
Proof.
  intros outcome. subst outcome. unfold Login.handleSubmit.
  destruct (isEmpty name || isEmpty password); [done|]. simpl.
  destruct (auth_login srv name password) as [response|failure]; simpl.
  - destruct (success response), (login_user response); simpl; try done;
      unfold truthy; by destruct (isEmpty (login_message response)).
  - case_bool_decide; simpl; [done|].
    destruct (detail failure) as [d|]; simpl; [|done].
    unfold truthy. by destruct (isEmpty d).
Qed.

(** X20. While the login request is pending the loading flag is off:
    [setLoading(true)] is followed by [setError(null)], and SET_ERROR resets
    the flag, so the request is sent from a store with isLoading false (on
    which the submit button, disabled on isLoading, is enabled). *)
Theorem login_request_hides_loading (srv : Server) (st : AppState) (name password : string) :
  name ≠ "" → password ≠ "" →
  ∃ shown,
    requests (play srv (Login.handleSubmit name password) st).2
      = [(PostLogin name password, shown)] ∧
    isLoading shown = false ∧ error shown = None ∧ user shown = user st.
Proof.
  intros Hname%isEmpty_false Hpassword%isEmpty_false.
  exists (appReducer (appReducer st (SET_LOADING true)) (SET_ERROR None)).
  split; [|done].
  unfold Login.handleSubmit. rewrite Hname, Hpassword. simpl.
  destruct (auth_login srv name password) as [response|failure]; simpl.
  - by destruct (success response), (login_user response).
  - case_bool_decide; [done|]. by destruct (from_option truthy false (detail failure)).
Qed.

Lemma login_request_hides_loading_witness :
  "kamala" ≠ "" ∧ "admin" ≠ "" ∧
  ∃ shown,
    requests (play answeringServer (Login.handleSubmit "kamala" "admin") initialState).2
      = [(PostLogin "kamala" "admin", shown)] ∧
    isLoading shown = false.
Proof.
  assert (Hname : "kamala" ≠ "") by discriminate.
  assert (Hpassword : "admin" ≠ "") by discriminate.
  split; [exact Hname|]. split; [exact Hpassword|].
  destruct (login_request_hides_loading answeringServer initialState "kamala" "admin"
              Hname Hpassword) as (shown & Hrequests & Hloading & _).
  exists shown. split; [exact Hrequests | exact Hloading].
Defined.

(** ** The layout *)

(** X21. Document management is for Support and Tester users only: the
    layout shows that panel only on its page and to such a user, the
    navigation lists the page exactly for them, every page the navigation
    lists shows exactly one panel, and for anyone else the page shows
    nothing. *)
Theorem documents_are_gated_by_role (st : AppState) (currentPage : string) :
  (Layout.DocumentManagementPanel ∈ Layout.mainContent currentPage st →
   currentPage = "document-management" ∧
   ∃ u, user st = Some u ∧ (user_type u = Support ∨ user_type u = Tester)) ∧
  ("document-management" ∈ (Layout.navigationItems st).*1
   ↔ Layout.canManageDocuments st = true) ∧
  (∀ item, item ∈ Layout.navigationItems st → length (Layout.mainContent item.1 st) = 1) ∧
  (Layout.canManageDocuments st = false →
   Layout.mainContent "document-management" st = []).
Proof.
  unfold Layout.mainContent, Layout.navigationItems.
  split; [|split; [|split]].
  - intros Hin. case_bool_decide as Hpage; simpl in Hin.
    + split; [done|]. unfold Layout.canManageDocuments in *.
      destruct (user st) as [u|] eqn:Hu.
      * exists u. split; [done|].
        destruct (user_type u); [by left| |by right].
        subst currentPage. vm_compute in Hin.
        apply elem_of_nil in Hin. done.
      * subst currentPage. vm_compute in Hin. by apply elem_of_nil in Hin.
    + exfalso. repeat case_bool_decide; simpl in Hin;
        repeat (apply elem_of_cons in Hin as [Hin|Hin]; [discriminate Hin|]);
        by apply elem_of_nil in Hin.
  - destruct (Layout.canManageDocuments st); simpl; split; try done.
    + intros _. apply elem_of_cons. by left.
    + intros [Hin|Hin]%elem_of_cons; [discriminate Hin|]. by apply elem_of_nil in Hin.
  - intros item Hin. destruct (Layout.canManageDocuments st); simpl in Hin.
    + apply elem_of_cons in Hin as [->|Hin]; [done|].
      apply list_elem_of_singleton in Hin as ->. done.
    + apply list_elem_of_singleton in Hin as ->. done.
  - intros ->. done.
Qed.

Lemma documents_are_gated_by_role_witness :
  Layout.canManageDocuments (appReducer initialState (LOGIN kamala)) = true ∧
  Layout.canManageDocuments initialState = false ∧
  Layout.mainContent "document-management" initialState = [].
Proof.
  split; [reflexivity|]. split; [reflexivity|].
  exact (proj2 (proj2 (proj2
    (documents_are_gated_by_role initialState "document-management"))) eq_refl).
Defined.

(** ** The upload form *)

Lemma string_length_app (s1 s2 : string) :
  String.length (s1 +:+ s2) = String.length s1 + String.length s2.
Proof.
  induction s1 as [|c s1 IH]; [done|].
  change (S (String.length (s1 +:+ s2)) = S (String.length s1 + String.length s2)).
  by rewrite IH.
Qed.

Lemma toLowerCase_app (s1 s2 : string) :
  toLowerCase (s1 +:+ s2) = toLowerCase s1 +:+ toLowerCase s2.
Proof.
  induction s1 as [|c s1 IH]; [done|].
  change (String (lowerChar c) (toLowerCase (s1 +:+ s2))
          = String (lowerChar c) (toLowerCase s1 +:+ toLowerCase s2)).
  by rewrite IH.
Qed.

Lemma substring_all (s : string) : String.substring 0 (String.length s) s = s.
Proof. induction s as [|c s IH]; simpl; [done|]. by rewrite IH. Qed.

Lemma substring_skip (s1 s2 : string) (n : nat) :
  String.substring (String.length s1) n (s1 +:+ s2) = String.substring 0 n s2.
Proof. induction s1 as [|c s1 IH]; [done|]. exact IH. Qed.

Lemma endsWith_app (s suffix : string) : endsWith (s +:+ suffix) suffix = true.
Proof.
  unfold endsWith. rewrite string_length_app.
  rewrite bool_decide_eq_true_2 by lia. simpl.
  replace (String.length s + String.length suffix - String.length suffix)
    with (String.length s) by lia.
  rewrite substring_skip, substring_all. apply String.eqb_refl.
Qed.

(** X22. A file is accepted by its type or by its extension: a name that
    ends with .pdf, .txt or .md in any letter case, or one of the three
    MIME types, makes [isValidType] true whatever the other of the two
    is. *)
Theorem upload_accepts_extension_in_any_case
    (stem suffix type : string) (size : Z) :
  toLowerCase suffix ∈ DocumentUpload.allowedExtensions ∨
  type ∈ DocumentUpload.allowedTypes →
  DocumentUpload.isValidType
    {| file_name := stem +:+ suffix; file_type := type; file_size := size |} = true.
Proof.
  unfold DocumentUpload.isValidType. cbn [file_name file_type]. intros [Hext|Htype].
  - apply orb_true_iff. right. apply existsb_exists.
    exists (toLowerCase suffix). split; [by apply list_elem_of_In|].
    rewrite toLowerCase_app. apply endsWith_app.
  - by rewrite bool_decide_eq_true_2.
Qed.

Lemma upload_accepts_extension_in_any_case_witness :
  (toLowerCase ".PDF" ∈ DocumentUpload.allowedExtensions ∨
   "" ∈ DocumentUpload.allowedTypes) ∧
  DocumentUpload.isValidType reportPdf = true.
Proof.
  assert (Hext : toLowerCase ".PDF" ∈ DocumentUpload.allowedExtensions ∨
                 "" ∈ DocumentUpload.allowedTypes).
  { left. vm_compute. apply elem_of_cons. by left. }
  split; [exact Hext|].
  exact (upload_accepts_extension_in_any_case "Report" ".PDF" "" 2048 Hext).
Defined.

(** X23. [handleFileSelect] puts the file in the form exactly when its type
    or extension is allowed and its size is at most 10 MB (10485760 bytes),
    and then clears the error. Otherwise it only sets an error: on the type
    first, on the size only for an allowed type. *)
Theorem file_select_validation (srv : Server) (st : AppState) (file : File) :
  let outcome := play srv (DocumentUpload.handleFileSelect file) st in
  let accepted :=
    DocumentUpload.isValidType file && bool_decide (file_size file ≤ 10485760)%Z in
  (SetUploadFormFile file ∈ outcome.2.*1 ↔ accepted = true) ∧
  (accepted = true →
   outcome.2.*1 = [SetUploadFormFile file; Store (SET_ERROR None)] ∧
   error outcome.1 = None) ∧
  (DocumentUpload.isValidType file = false →
   outcome.2.*1 = [Store (SET_ERROR (Some "Please select a PDF, TXT, or Markdown file."))]) ∧
  (DocumentUpload.isValidType file = true → (10485760 < file_size file)%Z →
   outcome.2.*1 = [Store (SET_ERROR (Some "File size must be less than 10MB."))]).
Proof.
  intros outcome accepted. subst outcome accepted.
  unfold DocumentUpload.handleFileSelect, DocumentUpload.maxSize.
  change (10 * 1024 * 1024)%Z with 10485760%Z.
  destruct (DocumentUpload.isValidType file); simpl.
  - destruct (bool_decide_reflect (10485760 < file_size file)%Z) as [Hbig|Hfits]; simpl.
    + rewrite bool_decide_eq_false_2 by lia. repeat split; try done.
      intros [Hin|Hin]%elem_of_cons; [discriminate Hin | by apply elem_of_nil in Hin].
    + rewrite bool_decide_eq_true_2 by lia. repeat split; try done; try lia.
      intros _. apply elem_of_cons. by left.
  - repeat split; try done.
    intros [Hin|Hin]%elem_of_cons; [discriminate Hin | by apply elem_of_nil in Hin].
Qed.

(** X24. [handleSubmit] of the upload form. Without a file, or with a blank
    description, it only sets the error and sends nothing. Otherwise it
    sends one upload, with the trimmed description, from a store whose
    loading flag SET_ERROR has reset; on success the form is reset to its
    defaults and no error is set, on failure the error is set and the form
    is not touched; the loading flag ends off in both cases. *)
Theorem upload_submit (srv : Server) (st : AppState) (form : UploadForm) :
  let outcome := play srv (DocumentUpload.handleSubmit form) st in
  match form_file form with
  | Some file =>
      if isEmpty (trim (form_description form)) then
        outcome.2.*1
        = [Store (SET_ERROR (Some "Please select a file and provide a description."))]
      else
        let upload :=
          {| upload_file := file;
             upload_description := trim (form_description form);
             upload_category := form_category form;
             upload_status := form_status form;
             upload_access := form_access form |} in
        requests outcome.2
          = [(PostUpload upload,
              appReducer (appReducer st (SET_LOADING true)) (SET_ERROR None))] ∧
        isLoading outcome.1 = false ∧
        match upload_document srv upload with
        | Resolved res =>
            error outcome.1 = None ∧
            SetUploadForm DocumentUpload.emptyForm ∈ outcome.2.*1
        | Rejected =>
            error outcome.1 = Some "Failed to upload document. Please try again." ∧
            ∀ f, SetUploadForm f ∉ outcome.2.*1
        end
  | None =>
      outcome.2.*1
      = [Store (SET_ERROR (Some "Please select a file and provide a description."))]
  end.
Proof.
  intros outcome. subst outcome. unfold DocumentUpload.handleSubmit.
  destruct (form_file form) as [file|]; [|done].
  destruct (isEmpty (trim (form_description form))); [done|]. simpl.
  destruct (upload_document srv _) as [res|]; simpl.
  - repeat split. do 4 (apply elem_of_cons; right). apply elem_of_cons. by left.
  - repeat split. intros f Hin.
    repeat (apply elem_of_cons in Hin as [Hin|Hin]; [discriminate Hin|]).
    by apply elem_of_nil in Hin.
Qed.

Lemma file_select_validation_witness :
  (DocumentUpload.isValidType reportPdf && bool_decide (file_size reportPdf ≤ 10485760)%Z
   = true) ∧
  (play answeringServer (DocumentUpload.handleFileSelect reportPdf) savedChat).2.*1
  = [SetUploadFormFile reportPdf; Store (SET_ERROR None)].
Proof.
  assert (Haccepted : DocumentUpload.isValidType reportPdf
                      && bool_decide (file_size reportPdf ≤ 10485760)%Z = true)
    by (vm_compute; reflexivity).
  split; [exact Haccepted|].
  exact (proj1 (proj1 (proj2
    (file_select_validation answeringServer savedChat reportPdf)) Haccepted)).
Defined.

(** ** Dragging and resizing the panel *)

(** X25. Dragging keeps the panel inside the window: the position
    [handleMouseMove] sets is never negative, the panel ends within the
    width and the height of the window when it fits there and sits at 0
    when it does not, it follows the pointer while that stays in range, and
    the position is a fixed point of the window's resize listener. *)
Theorem drag_keeps_panel_in_viewport
    (panel : ChatPanel.PanelBox) (dragOffset position : ChatPanel.Position)
    (clientX clientY innerWidth innerHeight : Z) :
  let moved :=
    ChatPanel.handleMouseMove true (Some panel) dragOffset clientX clientY
      innerWidth innerHeight position in
  let maxX := (innerWidth - ChatPanel.offsetWidth panel)%Z in
  let maxY := (innerHeight - ChatPanel.offsetHeight panel)%Z in
  (0 ≤ ChatPanel.x moved ∧ 0 ≤ ChatPanel.y moved)%Z ∧
  ((0 ≤ maxX → ChatPanel.x moved + ChatPanel.offsetWidth panel ≤ innerWidth) ∧
   (0 ≤ maxY → ChatPanel.y moved + ChatPanel.offsetHeight panel ≤ innerHeight))%Z ∧
  ((maxX < 0 → ChatPanel.x moved = 0) ∧ (maxY < 0 → ChatPanel.y moved = 0))%Z ∧
  ((0 ≤ clientX - ChatPanel.x dragOffset ≤ maxX →
    ChatPanel.x moved = clientX - ChatPanel.x dragOffset) ∧
   (0 ≤ clientY - ChatPanel.y dragOffset ≤ maxY →
    ChatPanel.y moved = clientY - ChatPanel.y dragOffset))%Z ∧
  ChatPanel.handleResize (Some panel) innerWidth innerHeight moved = moved.
Proof.
  intros moved maxX maxY. subst moved maxX maxY.
  unfold ChatPanel.handleMouseMove, ChatPanel.handleResize. simpl.
  repeat split; try lia. f_equal; lia.
Qed.

Lemma drag_keeps_panel_in_viewport_witness :
  (0 ≤ 1280 - 384)%Z ∧
  (ChatPanel.x
     (ChatPanel.handleMouseMove true
        (Some {| ChatPanel.left := 860; ChatPanel.top := 50;
                 ChatPanel.offsetWidth := 384; ChatPanel.offsetHeight := 500 |})
        {| ChatPanel.x := 10; ChatPanel.y := 10 |} 2000 300 1280 720
        {| ChatPanel.x := 860; ChatPanel.y := 50 |}) + 384 ≤ 1280)%Z.
Proof.
  assert (Hfits : (0 ≤ 1280 - 384)%Z) by lia.
  split; [exact Hfits|].
  exact (proj1 (proj1 (proj2
    (drag_keeps_panel_in_viewport
       {| ChatPanel.left := 860; ChatPanel.top := 50;
          ChatPanel.offsetWidth := 384; ChatPanel.offsetHeight := 500 |}
       {| ChatPanel.x := 10; ChatPanel.y := 10 |}
       {| ChatPanel.x := 860; ChatPanel.y := 50 |} 2000 300 1280 720))) Hfits).
Defined.

(** X26. Resizing never makes the panel smaller than 300 by 400: a handle
    that includes right sets a width of at least 300, which ends within the
    window when 300 fits there and is 300 otherwise, and likewise a handle
    that includes bottom for a height of 400; a handle that does not include
    the direction leaves that dimension as it is. *)
Theorem resize_respects_minimum
    (rect : ChatPanel.PanelBox) (resizeDirection : string)
    (position size : ChatPanel.Position) (clientX clientY innerWidth innerHeight : Z) :
  let resized :=
    ChatPanel.handleResizeMouseMove true (Some rect) resizeDirection position size
      clientX clientY innerWidth innerHeight in
  (if includes resizeDirection "right"
   then (300 ≤ ChatPanel.x resized ∧
         (300 ≤ innerWidth - ChatPanel.x position →
          ChatPanel.x position + ChatPanel.x resized ≤ innerWidth) ∧
         (innerWidth - ChatPanel.x position < 300 → ChatPanel.x resized = 300))%Z
   else ChatPanel.x resized = ChatPanel.x size) ∧
  (if includes resizeDirection "bottom"
   then (400 ≤ ChatPanel.y resized ∧
         (400 ≤ innerHeight - ChatPanel.y position →
          ChatPanel.y position + ChatPanel.y resized ≤ innerHeight) ∧
         (innerHeight - ChatPanel.y position < 400 → ChatPanel.y resized = 400))%Z
   else ChatPanel.y resized = ChatPanel.y size).
Proof.
  intros resized. subst resized. unfold ChatPanel.handleResizeMouseMove. simpl.
  destruct (includes resizeDirection "right"), (includes resizeDirection "bottom");
    repeat split; lia.
Qed.

Lemma resize_respects_minimum_witness :
  (300 ≤ 1280 - 860)%Z ∧
  (860 + ChatPanel.x
     (ChatPanel.handleResizeMouseMove true
        (Some {| ChatPanel.left := 860; ChatPanel.top := 50;
                 ChatPanel.offsetWidth := 384; ChatPanel.offsetHeight := 500 |})
        "bottom-right" {| ChatPanel.x := 860; ChatPanel.y := 50 |}
        {| ChatPanel.x := 384; ChatPanel.y := 500 |} 2000 100 1280 720) ≤ 1280)%Z.
Proof.
  assert (Hfits : (300 ≤ 1280 - 860)%Z) by lia.
  split; [exact Hfits|].
  exact (proj1 (proj2 (proj1
    (resize_respects_minimum
       {| ChatPanel.left := 860; ChatPanel.top := 50;
          ChatPanel.offsetWidth := 384; ChatPanel.offsetHeight := 500 |}
       "bottom-right" {| ChatPanel.x := 860; ChatPanel.y := 50 |}
       {| ChatPanel.x := 384; ChatPanel.y := 500 |} 2000 100 1280 720))) Hfits).
Defined.

(** The three handles of the panel. *)
Example resize_directions :
  (includes "right" "right", includes "right" "bottom") = (true, false) ∧
  (includes "bottom" "right", includes "bottom" "bottom") = (false, true) ∧
  (includes "bottom-right" "right", includes "bottom-right" "bottom") = (true, true).
Proof. by vm_compute. Qed.

(** ** The feedback history *)

Lemma substring0_length (n : nat) (s : string) :
  String.length (substring0 n s) = n `min` String.length s.
Proof.
  unfold substring0. revert n. induction s as [|c s IH]; intros [|n]; simpl; try done.
  by rewrite IH.
Qed.

(** X27. [truncateText] returns a text of at most maxLength characters as
    it is, and otherwise its first maxLength characters followed by three
    dots, maxLength + 3 characters in all; the result is never longer than
    both the text and maxLength + 3. *)
Theorem truncateText_length (text : string) (maxLength : nat) :
  (String.length text ≤ maxLength → UsersFeedback.truncateText text maxLength = text) ∧
  (maxLength < String.length text →
   String.length (UsersFeedback.truncateText text maxLength) = maxLength + 3 ∧
   ∃ shown rest,
     text = shown +:+ rest ∧ String.length shown = maxLength ∧
     UsersFeedback.truncateText text maxLength = shown +:+ "...") ∧
  String.length (UsersFeedback.truncateText text maxLength)
  ≤ String.length text `max` (maxLength + 3).
Proof.
  unfold UsersFeedback.truncateText.
  destruct (bool_decide_reflect (String.length text ≤ maxLength)) as [Hshort|Hlong].
  - split; [done|]. split; [lia|]. lia.
  - assert (Hlen : String.length (substring0 maxLength text +:+ "...") = maxLength + 3).
    { rewrite string_length_app, substring0_length. simpl. lia. }
    split; [lia|]. split; [|lia]. intros _. split; [done|].
    destruct (substring0_prefix maxLength text) as [rest Hrest].
    exists (substring0 maxLength text), rest. split; [done|]. split; [|done].
    rewrite substring0_length. lia.
Qed.

Lemma truncateText_length_witness :
  (3 < String.length "Hello") ∧
  String.length (UsersFeedback.truncateText "Hello" 3) = 6.
Proof.
  assert (Hlong : 3 < String.length "Hello") by (simpl; lia).
  split; [exact Hlong|].
  exact (proj1 (proj1 (proj2 (truncateText_length "Hello" 3)) Hlong)).
Defined.

(** ** What the handlers never do *)

Lemma only_impl {T} (P Q : call → Prop) (p : handler T) :
  (∀ c, P c → Q c) → only P p → only Q p.
Proof. intros HPQ. induction 1; constructor; auto. Qed.

Lemma quiet_sound (c : call) : quiet c → soundCall c.
Proof. destruct c as [[]| | | | | | |]; simpl; done. Qed.

(** Walks down the events of a task that is already in head normal form. *)
Ltac Only_steps :=
  repeat first
    [ apply Only_Finish
    | apply Only_Step; [simpl; done | intros ?] ].

(** Case analysis on the answer the rest of a handler waits for. *)
Ltac case_answer :=
  match goal with
  | |- context [match ?r with _ => _ end] => is_var r; destruct r
  end.

Lemma sound_step (s : AppState) (a : AppAction) :
  soundAction a → userIsLoggedIn s → userIsLoggedIn (appReducer s a).
Proof. destruct a; simpl; try done. by intros Hu _ u' [= <-]. Qed.

Lemma sound_run {T} (b : Backend) (p : handler T) (s : AppState) :
  only soundCall p → userIsLoggedIn s → userIsLoggedIn (run b p s).1.
Proof.
  intros Hp. revert s. induction Hp as [x|c k Hc _ IH]; intros s Hs; simpl; [done|].
  apply IH. destruct c; simpl in *; try done. by apply sound_step.
Qed.

Lemma sound_play {T} (srv : Server) (p : task T) (s : AppState) :
  Only soundEvent p → userIsLoggedIn s → userIsLoggedIn (play srv p s).1.
Proof.
  intros Hp. revert s. induction Hp as [x|e k He _ IH]; intros s Hs; simpl; [done|].
  apply IH. destruct e; simpl in *; try done. by apply sound_step.
Qed.

(** Every handler stores a user only through LOGIN of a user marked as
    logged in: the one LOGIN in the code is that of the login form. *)
Lemma handlers_are_sound :
  (∀ st input, only soundCall (ChatPanel.handleSendMessage st input)) ∧
  (∀ st input streaming, only soundCall (Chat.handleSendMessage st input streaming)) ∧
  (∀ st i tag, only soundCall (ChatPanel.handleFeedback st i tag)) ∧
  (∀ st i tag click, Chat.handleFeedback st i tag = Some click → only soundCall click) ∧
  only soundCall Layout.handleLogout ∧
  (∀ st, Only soundEvent (ChatPanel.initializeChatSession st)) ∧
  (∀ st chatId, Only soundEvent (ChatPanel.handleHistoryItemClick st chatId)) ∧
  Only soundEvent ChatPanel.handleNewChat ∧
  (∀ st, Only soundEvent (Chat.initializeChatSession st)) ∧
  (∀ st, Only soundEvent (Chat.onNeedsHistoryRefresh st)) ∧
  (∀ st chatId, Only soundEvent (Chat.handleHistoryItemClick st chatId)) ∧
  Only soundEvent Chat.handleNewChat ∧
  Only soundEvent Layout.handleDismissError ∧
  (∀ name password, Only soundEvent (Login.handleSubmit name password)) ∧
  (∀ file, Only soundEvent (DocumentUpload.handleFileSelect file)) ∧
  (∀ form, Only soundEvent (DocumentUpload.handleSubmit form)).
Proof.
  repeat split.
  - intros st input. unfold ChatPanel.handleSendMessage.
    destruct (isEmpty (trim input)); [constructor|].
    destruct (user st); [|constructor]. cbn. only_steps.
    case_answer; cbn; only_steps.
    destruct (truthy _ && bool_decide (currentChatId st = Some sentinel));
      cbn; only_steps;
      (apply (only_impl quiet); [apply quiet_sound | apply ChatPanel_streamingInterval_quiet]).
  - intros st input streaming. unfold Chat.handleSendMessage.
    destruct (isEmpty (trim input)); [constructor|].
    destruct (user st); [|constructor]. destruct streaming; [constructor|].
    cbn. only_steps. case_answer; cbn; only_steps.
    destruct (bool_decide (currentChatId st = Some sentinel)
              || bool_decide (currentChatId st = None));
      cbn; only_steps;
      (apply (only_impl quiet); [apply quiet_sound | apply Chat_streaming_then_done_quiet]).
  - intros st i tag. unfold ChatPanel.handleFeedback.
    destruct (at_index (messages st) i), (user st), (currentChatId st); try apply only_Done.
    destruct (isEmpty _ || _); [constructor|]. cbn. only_steps.
    case_answer; only_steps.
  - intros st i tag click. unfold Chat.handleFeedback.
    destruct (at_index (messages st) i); [|done]. intros [= <-]. cbn. only_steps.
  - unfold Layout.handleLogout. cbn. only_steps. case_answer; cbn; only_steps.
  - intros st. unfold ChatPanel.initializeChatSession.
    destruct (user st); [|constructor]. cbn. Only_steps. case_answer; cbn; Only_steps.
  - intros st chatId. unfold ChatPanel.handleHistoryItemClick.
    destruct (user st); [|constructor]. cbn. Only_steps. case_answer; cbn; Only_steps.
  - cbn. Only_steps.
  - intros st. unfold Chat.initializeChatSession.
    destruct (user st); [|constructor]. cbn. Only_steps.
    case_answer; [case_answer|]; cbn; Only_steps. case_answer; cbn; Only_steps.
  - intros st. unfold Chat.onNeedsHistoryRefresh.
    destruct (needsHistoryRefresh st), (user st); try apply Only_Finish.
    cbn. Only_steps. case_answer; cbn; Only_steps.
  - intros st chatId. unfold Chat.handleHistoryItemClick.
    destruct (user st); [|constructor]. cbn. Only_steps. case_answer; cbn; Only_steps.
  - cbn. Only_steps.
  - cbn. Only_steps.
  - intros name password. unfold Login.handleSubmit.
    destruct (isEmpty name || isEmpty password); cbn; Only_steps.
    case_answer; cbn.
    + destruct (success l), (login_user l); cbn; Only_steps.
    + destruct (bool_decide (status a = Some 401%Z)); cbn; Only_steps.
      destruct (from_option truthy false (detail a)); cbn; Only_steps.
  - intros file. unfold DocumentUpload.handleFileSelect.
    destruct (negb _); cbn; Only_steps. case_bool_decide; cbn; Only_steps.
  - intros form. unfold DocumentUpload.handleSubmit.
    destruct (form_file form); cbn; Only_steps.
    destruct (isEmpty _); cbn; Only_steps. case_answer; cbn; Only_steps.
Qed.

(** X28. No handler ever leaves in the store a user that is not marked as
    logged in, which is the mark App.tsx tests to leave the login form:
    run on a store where [state.user] is null or marked, every handler,
    whatever state it was created in and whatever the backend answers,
    ends on such a store. *)
Theorem handlers_keep_user_logged_in (s : AppState) :
  userIsLoggedIn s →
  (∀ b st input, userIsLoggedIn (run b (ChatPanel.handleSendMessage st input) s).1) ∧
  (∀ b st input streaming,
     userIsLoggedIn (run b (Chat.handleSendMessage st input streaming) s).1) ∧
  (∀ b st i tag, userIsLoggedIn (run b (ChatPanel.handleFeedback st i tag) s).1) ∧
  (∀ b st i tag click,
     Chat.handleFeedback st i tag = Some click → userIsLoggedIn (run b click s).1) ∧
  (∀ b, userIsLoggedIn (run b Layout.handleLogout s).1) ∧
  (∀ srv st, userIsLoggedIn (play srv (ChatPanel.initializeChatSession st) s).1) ∧
  (∀ srv st chatId,
     userIsLoggedIn (play srv (ChatPanel.handleHistoryItemClick st chatId) s).1) ∧
  (∀ srv, userIsLoggedIn (play srv ChatPanel.handleNewChat s).1) ∧
  (∀ srv st, userIsLoggedIn (play srv (Chat.initializeChatSession st) s).1) ∧
  (∀ srv st, userIsLoggedIn (play srv (Chat.onNeedsHistoryRefresh st) s).1) ∧
  (∀ srv st chatId,
     userIsLoggedIn (play srv (Chat.handleHistoryItemClick st chatId) s).1) ∧
  (∀ srv, userIsLoggedIn (play srv Chat.handleNewChat s).1) ∧
  (∀ srv, userIsLoggedIn (play srv Layout.handleDismissError s).1) ∧
  (∀ srv name password, userIsLoggedIn (play srv (Login.handleSubmit name password) s).1) ∧
  (∀ srv file, userIsLoggedIn (play srv (DocumentUpload.handleFileSelect file) s).1) ∧
  (∀ srv form, userIsLoggedIn (play srv (DocumentUpload.handleSubmit form) s).1).
Proof.
  intros Hs.
  destruct handlers_are_sound
    as (Hsend & Hsend' & Hfeedback & Hfeedback' & Hlogout & Hinit & Hclick & Hnew
        & Hinit' & Hrefresh & Hclick' & Hnew' & Hdismiss & Hlogin & Hselect & Hupload).
  repeat split; intros; first [apply sound_run | apply sound_play]; eauto.
Qed.

Lemma handlers_keep_user_logged_in_witness :
  userIsLoggedIn initialState ∧
  userIsLoggedIn
    (play answeringServer (Login.handleSubmit "kamala" "admin") initialState).1.
Proof.
  assert (Hs : userIsLoggedIn initialState) by (intros u Hu; discriminate Hu).
  split; [exact Hs|].
  destruct (handlers_keep_user_logged_in initialState Hs)
    as (_ & _ & _ & _ & _ & _ & _ & _ & _ & _ & _ & _ & _ & Hlogin & _).
  exact (Hlogin answeringServer "kamala" "admin").
Defined.

(** ** Selections *)

(** X29. Clicking an item of the feedback history, or the check box of a
    document, toggles its membership in the set and nothing else: the item
    is in the new set exactly when it was not in the old one, every other
    item stays as it was, a second click restores the set, and clicks on two
    items give the same set in either order. *)
Theorem toggle_selection (selected : gset string) (itemId other : string) :
  DocumentManagement.toggleDeleteSelection selected itemId
  = UsersFeedback.toggleExpanded selected itemId ∧
  (itemId ∈ UsersFeedback.toggleExpanded selected itemId ↔ itemId ∉ selected) ∧
  (other ≠ itemId →
   (other ∈ UsersFeedback.toggleExpanded selected itemId ↔ other ∈ selected)) ∧
  UsersFeedback.toggleExpanded (UsersFeedback.toggleExpanded selected itemId) itemId
  = selected ∧
  UsersFeedback.toggleExpanded (UsersFeedback.toggleExpanded selected itemId) other
  = UsersFeedback.toggleExpanded (UsersFeedback.toggleExpanded selected other) itemId.
Proof.
  assert (Hin : ∀ (set : gset string) a c,
            c ∈ UsersFeedback.toggleExpanded set a ↔ (c = a ∧ a ∉ set) ∨ (c ≠ a ∧ c ∈ set)).
  { intros set a c. unfold UsersFeedback.toggleExpanded.
    destruct (bool_decide_reflect (a ∈ set)) as [Ha|Ha];
      rewrite ?elem_of_difference, ?elem_of_union, elem_of_singleton;
      destruct (decide (c = a)) as [->|Hne]; tauto. }
  split; [done|]. split; [|split; [|split]].
  - rewrite Hin. tauto.
  - intros Hne. rewrite Hin. tauto.
  - apply set_eq. intros c. rewrite !Hin.
    destruct (decide (c = itemId)) as [->|Hne]; [|tauto].
    destruct (decide (itemId ∈ selected)); tauto.
  - apply set_eq. intros c. rewrite !Hin.
    destruct (decide (c = itemId)) as [Hc|Hc], (decide (c = other)) as [Hc'|Hc'];
      try subst c; try subst other;
      destruct (decide (itemId ∈ selected)); try tauto;
      destruct (decide (other ∈ selected)); tauto.
Qed.
